(** * Resolver layer of the book search engine

    A shallow embedding of [server/src/schemas/resolvers.ts]: the two query
    resolvers ([user], [me]) and the four mutation resolvers ([createUser],
    [loginUser], [saveBook], [deleteBook]) over the User document store.

    The resolvers are [async] functions that talk to three collaborators:
    the Mongoose model [User] (the store), the password hasher behind
    [isCorrectPassword], and [signToken].  They are embedded as computations
    in a small state-and-exception monad over a [World] that holds the
    stored documents and a trace of every collaborator call. *)

From Stdlib Require Import List String Bool Arith ZArith Lia.
From Stdlib Require Import Permutation.
Import ListNotations.
Local Open Scope string_scope.
Local Open Scope list_scope.

(** ** Data model *)

(** [interface BookInput] (resolvers.ts, lines 39-46).  The TypeScript type
    of [authors] is the tuple [[string]]; at run time it is whatever array
    of strings GraphQL delivers, hence a list. *)
Record BookInput : Type := {
  authors : list string;
  description : string;
  bookId : string;
  image : string;
  link : string;
  title : string
}.

(** Modelled from the spec: [BookDocument] is imported from [models/Book.js],
    which is missing.  The spec's data model gives an embedded Book exactly
    the six fields of a [BookInput], and no identity of its own. *)
Abbreviation BookDocument := BookInput (only parsing).

(** An [ObjectId], in the string form a document exposes as [id]. *)
Definition ObjectId : Type := string.

(** Full-field equality of two books, the equality [$addToSet] compares
    array elements with. *)
Definition BookInput_eq_dec (a b : BookInput) : {a = b} + {a <> b}.
Proof.
  decide equality; try apply string_dec.
  apply (list_eq_dec string_dec).
Defined.

(** What the store keeps for one user.  There is no [bookCount] here: the
    count is derived when a document is read ([User.hydrate] below). *)
Module Stored.
Record t : Type := {
  _id : ObjectId;
  username : string;
  email : string;
  password : string;
  savedBooks : list BookDocument
}.
End Stored.

(** [interface UserArgs] (lines 18-20). *)
Module UserArgs.
Record t : Type := { username : string }.
End UserArgs.

(** [interface CreateUserArgs] (lines 23-30). *)
Module CreateUserArgs.
Record input_t : Type := {
  username : string;
  email : string;
  password : string;
  savedBooks : list BookInput
}.
Record t : Type := { input : input_t }.
End CreateUserArgs.

(** [interface LoginArgs] (lines 33-36). *)
Module LoginArgs.
Record t : Type := { email : string; password : string }.
End LoginArgs.

(** The argument of [saveBook], written inline in the source as
    [{ input: BookInput }] (line 104). *)
Module SaveBookArgs.
Record t : Type := { input : BookInput }.
End SaveBookArgs.

(** [interface DeleteBookArgs] (lines 49-51). *)
Module DeleteBookArgs.
Record t : Type := { bookId : string }.
End DeleteBookArgs.

(** ** The request context

    [context] is typed [any].  What the resolvers do with it is test
    [context.user] for truthiness and read [context.user._id], so
    [context.user] is embedded as a JavaScript value: the primitives, or an
    object that may carry an [_id] and an [id]. *)
Module Identity.
Record t : Type := { _id : option ObjectId; id : option string }.
End Identity.

Inductive JsValue : Type :=
| JsUndefined
| JsNull
| JsBoolean (b : bool)
| JsNumber (n : Z)
| JsNaN
| JsString (s : string)
| JsObject (o : Identity.t).

(** JavaScript's ToBoolean: what [if (context.user)] tests. *)
Definition truthy (v : JsValue) : bool :=
  match v with
  | JsUndefined | JsNull | JsNaN => false
  | JsBoolean b => b
  | JsNumber n => negb (Z.eqb n 0)
  | JsString s => negb (String.eqb s EmptyString)
  | JsObject _ => true
  end.

(** The member access [v._id] on a truthy value: the object's own field, and
    [undefined] ([None]) on a primitive or on an object without one. *)
Definition get__id (v : JsValue) : option ObjectId :=
  match v with
  | JsObject o => Identity._id o
  | _ => None
  end.

Module Context.
Record t : Type := { user : JsValue }.
End Context.

(** ** Failures *)

Inductive StoreFailure : Type :=
| ValidationFailed
| CreateRefused.

(** What a resolver can throw.  [new_AuthenticationError m] is the instance
    built by [new AuthenticationError(m)]; [AuthenticationError] is the class
    itself used as a value, which is what line 89 throws; [StoreError] is a
    failure of the store, which the resolvers let through untouched.

    Modelled from the spec: [AuthenticationError] is imported from
    [utils/auth.js], which is missing; the spec makes it the single
    authentication error kind, carrying a human-readable message. *)
Inductive Thrown : Type :=
| new_AuthenticationError (message : string)
| AuthenticationError
| StoreError (e : StoreFailure).

(** [e instanceof AuthenticationError]: the class is not an instance of
    itself. *)
Definition instanceof_AuthenticationError (e : Thrown) : bool :=
  match e with
  | new_AuthenticationError _ => true
  | AuthenticationError => false
  | StoreError _ => false
  end.

(** ** Calls to the collaborators *)

(** The three filters the resolvers build: [{ username }], [{ email }] and
    [{ _id: context.user._id }], the last with a possibly absent value. *)
Inductive Filter : Type :=
| by_username (username : string)
| by_email (email : string)
| by__id (_id : option ObjectId).

(** The two update documents: [{ $addToSet: { savedBooks: input } }] and
    [{ $pull: { savedBooks: { bookId: bookId } } }]. *)
Inductive Update : Type :=
| addToSet_savedBooks (input : BookInput)
| pull_savedBooks (bookId : string).

Record Options : Type := { new : bool; runValidators : bool }.

Inductive Call : Type :=
| Call_findOne (f : Filter)
| Call_create (doc : CreateUserArgs.input_t)
| Call_findOneAndUpdate (f : Filter) (u : Update) (o : Options)
| Call_isCorrectPassword (_id : ObjectId) (password : string)
| Call_signToken (username email : string) (id : string).

Definition is_store_call (c : Call) : bool :=
  match c with
  | Call_findOne _ | Call_create _ | Call_findOneAndUpdate _ _ _ => true
  | Call_isCorrectPassword _ _ | Call_signToken _ _ _ => false
  end.

Definition is_signToken_call (c : Call) : bool :=
  match c with
  | Call_signToken _ _ _ => true
  | _ => false
  end.

(** ** The world and the [async] monad *)

(** The collection of user documents, in the store's order, and every
    collaborator call made so far, oldest first. *)
Record World : Type := {
  users : list Stored.t;
  trace : list Call
}.

(** How an awaited promise settles. *)
Inductive Completion (A : Type) : Type :=
| Fulfilled (a : A)
| Rejected (e : Thrown).

Arguments Fulfilled {A} a.
Arguments Rejected {A} e.

Definition Async (A : Type) : Type := World -> Completion A * World.

Definition ret {A : Type} (a : A) : Async A := fun w => (Fulfilled a, w).

Definition throw {A : Type} (e : Thrown) : Async A := fun w => (Rejected e, w).

Definition bind {A B : Type} (m : Async A) (k : A -> Async B) : Async B :=
  fun w =>
    match m w with
    | (Fulfilled a, w') => k a w'
    | (Rejected e, w') => (Rejected e, w')
    end.

Notation "x <- m ;; k" := (bind m (fun x => k))
  (at level 61, m at next level, right associativity).

(** The world once one more call has been made. *)
Definition called (c : Call) (w : World) : World :=
  {| users := users w; trace := trace w ++ [c] |}.

Definition record (c : Call) : Async unit :=
  fun w => (Fulfilled tt, called c w).

Definition read_users : Async (list Stored.t) :=
  fun w => (Fulfilled (users w), w).

Definition write_users (ds : list Stored.t) : Async unit :=
  fun w => (Fulfilled tt, {| users := ds; trace := trace w |}).

(** ** The collaborators behind the store and the auth helpers

    What the resolver layer cannot see into: how the store hashes a password
    when it creates a user, how a password is compared with a stored hash,
    how a token is signed, which identifier the store gives a new document,
    and which documents and books the store's own constraints and validators
    accept. *)
Class Collaborators : Type := {
  hash : string -> string;
  compare : string -> string -> bool;
  sign : string -> string -> string -> string;
  newObjectId : list Stored.t -> ObjectId;
  createAccepted : list Stored.t -> CreateUserArgs.input_t -> bool;
  bookAccepted : BookInput -> bool
}.

(** ** The User model

    Modelled from the spec: [models/User.js] is missing.  The contract of
    the store is the one the spec states (its sections 3, 4 and 6): lookup by
    exact match on a field, creation of one document per call with the
    password hashed on the way in, and an atomic find-and-update with the
    array operators [$addToSet] and [$pull] and the options [new] and
    [runValidators]. *)

Module User.

(** [interface User] (lines 8-15), with the [_id] every hydrated document
    also carries ([createUser] reads it on line 79). *)
Record t : Type := {
  _id : ObjectId;
  id : string;
  username : string;
  email : string;
  password : string;
  savedBooks : list BookDocument;
  bookCount : nat
}.

(** Modelled from the spec: the User model ([models/User.js]) is missing.
    The spec says a stored user has an identifier, a username, an email, a
    password and its saved books, and that [bookCount] is derived, the
    count of [savedBooks], computed when the document is read and not stored;
    [id] is the string form of [_id]. *)
Definition hydrate (d : Stored.t) : t := {|
  _id := Stored._id d;
  id := Stored._id d;
  username := Stored.username d;
  email := Stored.email d;
  password := Stored.password d;
  savedBooks := Stored.savedBooks d;
  bookCount := List.length (Stored.savedBooks d)
|}.

(** Modelled from the spec: the store looks documents up by exact match on
    the named field.  Every stored document has an [_id], so a filter whose
    [_id] is absent matches none. *)
Definition matches (f : Filter) (d : Stored.t) : bool :=
  match f with
  | by_username s => String.eqb (Stored.username d) s
  | by_email s => String.eqb (Stored.email d) s
  | by__id (Some i) => String.eqb (Stored._id d) i
  | by__id None => false
  end.

(** [$addToSet]: the value is appended unless an element equal to it in
    every field is already there; elements already there are left alone. *)
Definition addToSet (b : BookInput) (books : list BookDocument)
  : list BookDocument :=
  if existsb (fun x => if BookInput_eq_dec x b then true else false) books
  then books
  else books ++ [b].

(** [$pull] with the condition [{ bookId: k }]: every element whose [bookId]
    is [k] is removed. *)
Definition pull (k : string) (books : list BookDocument) : list BookDocument :=
  filter (fun x => negb (String.eqb (bookId x) k)) books.

Definition set_savedBooks (d : Stored.t) (books : list BookDocument)
  : Stored.t := {|
  Stored._id := Stored._id d;
  Stored.username := Stored.username d;
  Stored.email := Stored.email d;
  Stored.password := Stored.password d;
  Stored.savedBooks := books
|}.

Definition applyUpdate (u : Update) (d : Stored.t) : Stored.t :=
  match u with
  | addToSet_savedBooks b => set_savedBooks d (addToSet b (Stored.savedBooks d))
  | pull_savedBooks k => set_savedBooks d (pull k (Stored.savedBooks d))
  end.

(** The update reaches the first document the filter matches, and only it. *)
Fixpoint updateFirst (f : Filter) (u : Update) (ds : list Stored.t)
  : list Stored.t :=
  match ds with
  | [] => []
  | d :: ds' =>
      if matches f d then applyUpdate u d :: ds'
      else d :: updateFirst f u ds'
  end.

Section Model.
Context {C : Collaborators}.

(** [User.findOne(filter)]: the first matching document, or [null]. *)
Definition findOne (f : Filter) : Async (option t) :=
  _ <- record (Call_findOne f) ;;
  ds <- read_users ;;
  ret (option_map hydrate (find (matches f) ds)).

(** [User.create(doc)]: one new document, with the password hashed by the
    store; a document the store's constraints refuse is a store error. *)
Definition create (doc : CreateUserArgs.input_t) : Async t :=
  _ <- record (Call_create doc) ;;
  ds <- read_users ;;
  if createAccepted ds doc then
    let d := {|
      Stored._id := newObjectId ds;
      Stored.username := CreateUserArgs.username doc;
      Stored.email := CreateUserArgs.email doc;
      Stored.password := hash (CreateUserArgs.password doc);
      Stored.savedBooks := CreateUserArgs.savedBooks doc
    |} in
    _ <- write_users (ds ++ [d]) ;;
    ret (hydrate d)
  else throw (StoreError CreateRefused).

(** The validators an update runs under [runValidators]: those of the book
    it adds; a [$pull] adds nothing. *)
Definition updateAccepted (u : Update) : bool :=
  match u with
  | addToSet_savedBooks b => bookAccepted b
  | pull_savedBooks _ => true
  end.

(** [User.findOneAndUpdate(filter, update, options)]: with [runValidators]
    the update is validated before anything is written; the first matching
    document is updated in place; the result is that document, after the
    update with [new: true] and before it otherwise, or [null] when no
    document matches. *)
Definition findOneAndUpdate (f : Filter) (u : Update) (o : Options)
  : Async (option t) :=
  _ <- record (Call_findOneAndUpdate f u o) ;;
  if runValidators o && negb (updateAccepted u) then
    throw (StoreError ValidationFailed)
  else
    ds <- read_users ;;
    match find (matches f) ds with
    | None => ret None
    | Some d =>
        _ <- write_users (updateFirst f u ds) ;;
        ret (Some (hydrate (if new o then applyUpdate u d else d)))
    end.

(** [user.isCorrectPassword(password)]: the hasher compares the supplied
    password with the hash the document holds. *)
Definition isCorrectPassword (user : t) (pw : string) : Async bool :=
  _ <- record (Call_isCorrectPassword (_id user) pw) ;;
  ret (compare pw (password user)).

End Model.
End User.

(** [signToken(username, email, id)] of [utils/auth.js]. *)
Definition signToken {C : Collaborators} (username email id : string)
  : Async string :=
  _ <- record (Call_signToken username email id) ;;
  ret (sign username email id).

(** The result of [createUser] and [loginUser]: [{ token, user }]. *)
Module Auth.
Record t : Type := { token : string; user : User.t }.
End Auth.

(** ** The resolvers *)

Module Query.
Section Resolvers.
Context {C : Collaborators}.

(** Lines 58-62. *)
Definition user (args : UserArgs.t) : Async (option User.t) :=
  let username := UserArgs.username args in
  User.findOne (by_username username).

(** Lines 64-71. *)
Definition me (context : Context.t) : Async (option User.t) :=
  if truthy (Context.user context) then
    User.findOne (by__id (get__id (Context.user context)))
  else
    throw (new_AuthenticationError "Not Authenticated").

End Resolvers.
End Query.

Module Mutation.
Section Resolvers.
Context {C : Collaborators}.

(** Lines 76-82. *)
Definition createUser (args : CreateUserArgs.t) : Async Auth.t :=
  let input := CreateUserArgs.input args in
  user <- User.create input ;;
  token <- signToken (User.username user) (User.email user) (User._id user) ;;
  ret {| Auth.user := user; Auth.token := token |}.

(** Lines 84-102.  Line 89 throws the class [AuthenticationError] itself,
    not an instance of it. *)
Definition loginUser (args : LoginArgs.t) : Async Auth.t :=
  let email := LoginArgs.email args in
  let password := LoginArgs.password args in
  user <- User.findOne (by_email email) ;;
  match user with
  | None => throw AuthenticationError
  | Some user =>
      correctPw <- User.isCorrectPassword user password ;;
      if negb correctPw then
        throw (new_AuthenticationError "Not authenticated")
      else
        token <- signToken (User.username user) (User.email user)
                   (User.id user) ;;
        ret {| Auth.token := token; Auth.user := user |}
  end.

(** Lines 104-114. *)
Definition saveBook (args : SaveBookArgs.t) (context : Context.t)
  : Async (option User.t) :=
  let input := SaveBookArgs.input args in
  if truthy (Context.user context) then
    User.findOneAndUpdate
      (by__id (get__id (Context.user context)))
      (addToSet_savedBooks input)
      {| new := true; runValidators := true |}
  else
    throw (new_AuthenticationError "Could not find user").

(** Lines 116-126. *)
Definition deleteBook (args : DeleteBookArgs.t) (context : Context.t)
  : Async (option User.t) :=
  let bookId := DeleteBookArgs.bookId args in
  if truthy (Context.user context) then
    User.findOneAndUpdate
      (by__id (get__id (Context.user context)))
      (pull_savedBooks bookId)
      {| new := true; runValidators := false |}
  else
    throw (new_AuthenticationError "Could not find user").

End Resolvers.
End Mutation.

(** ** Operations as requests

    The six fields of the [resolvers] object, with the User value each one
    hands back to the transport (directly, or inside [{ token, user }]). *)
Inductive Operation : Type :=
| op_user (args : UserArgs.t)
| op_me (context : Context.t)
| op_createUser (args : CreateUserArgs.t)
| op_loginUser (args : LoginArgs.t)
| op_saveBook (args : SaveBookArgs.t) (context : Context.t)
| op_deleteBook (args : DeleteBookArgs.t) (context : Context.t).

Definition run {C : Collaborators} (op : Operation) : Async (option User.t) :=
  match op with
  | op_user args => Query.user args
  | op_me context => Query.me context
  | op_createUser args =>
      r <- Mutation.createUser args ;; ret (Some (Auth.user r))
  | op_loginUser args =>
      r <- Mutation.loginUser args ;; ret (Some (Auth.user r))
  | op_saveBook args context => Mutation.saveBook args context
  | op_deleteBook args context => Mutation.deleteBook args context
  end.

(** ** A concrete set of collaborators and sample data

    Used to run the resolvers on concrete requests. *)
Definition sample : Collaborators := {|
  hash := fun pw => ("hashed:" ++ pw)%string;
  compare := fun pw h => String.eqb ("hashed:" ++ pw)%string h;
  sign := fun username email id =>
    (username ++ "|" ++ email ++ "|" ++ id)%string;
  newObjectId := fun ds =>
    ("id" ++ String.concat EmptyString (map (fun _ => "x") ds))%string;
  createAccepted := fun ds doc =>
    negb (existsb (fun d =>
            String.eqb (Stored.username d) (CreateUserArgs.username doc)
            || String.eqb (Stored.email d) (CreateUserArgs.email doc)) ds);
  bookAccepted := fun b => negb (String.eqb (bookId b) EmptyString)
                           && negb (String.eqb (title b) EmptyString)
|}.

Definition dune : BookInput := {|
  authors := ["Frank Herbert"];
  description := "Desert planet";
  bookId := "b1";
  image := EmptyString;
  link := EmptyString;
  title := "Dune"
|}.

(** Same [bookId] as [dune], another title. *)
Definition dune_retitled : BookInput := {|
  authors := ["Frank Herbert"];
  description := "Desert planet";
  bookId := "b1";
  image := EmptyString;
  link := EmptyString;
  title := "Dune (2nd ed.)"
|}.

Definition emma : BookInput := {|
  authors := ["Jane Austen"];
  description := "A novel";
  bookId := "b2";
  image := EmptyString;
  link := EmptyString;
  title := "Emma"
|}.

Definition alice : Stored.t := {|
  Stored._id := "u1";
  Stored.username := "alice";
  Stored.email := "a@x.com";
  Stored.password := "hashed:p";
  Stored.savedBooks := [dune]
|}.

Definition bob : Stored.t := {|
  Stored._id := "u2";
  Stored.username := "bob";
  Stored.email := "b@x.com";
  Stored.password := "hashed:q";
  Stored.savedBooks := [dune; emma; dune_retitled]
|}.

Definition empty_world : World := {| users := []; trace := [] |}.

Definition two_users : World := {| users := [alice; bob]; trace := [] |}.

Definition as_user (i : ObjectId) : Context.t :=
  {| Context.user := JsObject {| Identity._id := Some i; Identity.id := None |} |}.

Definition anonymous : Context.t := {| Context.user := JsUndefined |}.


(** A context user that carries an [id] but no [_id]. *)
Definition id_only (i : string) : Context.t :=
  {| Context.user := JsObject {| Identity._id := None; Identity.id := Some i |} |}.

(** A new user whose input lists the same book twice. *)
Definition carol_args : CreateUserArgs.t := {|
  CreateUserArgs.input := {|
    CreateUserArgs.username := "carol";
    CreateUserArgs.email := "c@x.com";
    CreateUserArgs.password := "p";
    CreateUserArgs.savedBooks := [dune; dune]
  |}
|}.

(** What [createUser carol_args] stores in the empty world. *)
Definition carol : Stored.t := {|
  Stored._id := "id";
  Stored.username := "carol";
  Stored.email := "c@x.com";
  Stored.password := "hashed:p";
  Stored.savedBooks := [dune; dune]
|}.

Definition carol_auth : Auth.t := {|
  Auth.token := "carol|c@x.com|id";
  Auth.user := User.hydrate carol
|}.

Definition carol_world : World := {|
  users := [carol];
  trace := [Call_create (CreateUserArgs.input carol_args);
            Call_signToken "carol" "c@x.com" "id"]
|}.

(** ** The frame of an update

    Two stored documents that agree on everything but their saved books. *)
Definition same_identity (d d' : Stored.t) : Prop :=
  Stored._id d' = Stored._id d
  /\ Stored.username d' = Stored.username d
  /\ Stored.email d' = Stored.email d
  /\ Stored.password d' = Stored.password d.

(** The collection [after] is [before], or [before] with one document
    replaced in place by one of the same identity, that document being the
    one whose [_id] is [context.user._id]. *)
Definition only_target_savedBooks (context : Context.t)
    (before after : list Stored.t) : Prop :=
  after = before
  \/ exists pre d d' post,
       before = pre ++ d :: post
       /\ after = pre ++ d' :: post
       /\ get__id (Context.user context) = Some (Stored._id d)
       /\ same_identity d d'.

(** ** What identifies a stored user

    The fields of a document that no resolver rewrites. *)
Definition identity (d : Stored.t) : ObjectId * string * string * string :=
  (Stored._id d, Stored.username d, Stored.email d, Stored.password d).

(** Two documents of the same identity whose saved books are the same
    entries, up to their order. *)
Definition same_books_up_to_order (d d' : Stored.t) : Prop :=
  identity d = identity d'
  /\ Permutation (Stored.savedBooks d) (Stored.savedBooks d').

(** The login request with the credentials a [createUser] input carries. *)
Definition credentials (args : CreateUserArgs.t) : LoginArgs.t := {|
  LoginArgs.email := CreateUserArgs.email (CreateUserArgs.input args);
  LoginArgs.password := CreateUserArgs.password (CreateUserArgs.input args)
|}.

(** A new user who asks for alice's username. *)
Definition impostor_args : CreateUserArgs.t := {|
  CreateUserArgs.input := {|
    CreateUserArgs.username := "alice";
    CreateUserArgs.email := "other@x.com";
    CreateUserArgs.password := "p";
    CreateUserArgs.savedBooks := []
  |}
|}.

(** What alice gets back when she logs in. *)
Definition alice_auth : Auth.t := {|
  Auth.token := "alice|a@x.com|u1";
  Auth.user := User.hydrate alice
|}.

Definition alice_login : LoginArgs.t :=
  {| LoginArgs.email := "a@x.com"; LoginArgs.password := "p" |}.

(** Alice once she has saved [emma] too. *)
Definition alice_with_emma : Stored.t :=
  User.set_savedBooks alice [dune; emma].

(** ** Authentication failures

    A promise rejected with an authentication error: an instance of
    [AuthenticationError], or the class itself. *)
Definition authentication_failure {A : Type} (c : Completion A) : bool :=
  match c with
  | Rejected (new_AuthenticationError _) => true
  | Rejected AuthenticationError => true
  | _ => false
  end.

(** The first stored user whose [_id] is [i]. *)
Definition first_with__id (i : ObjectId) (ds : list Stored.t)
  : option Stored.t :=
  find (fun d => String.eqb (Stored._id d) i) ds.

(** A context user whose [_id] names bob and whose [id] names alice. *)
Definition bob_by__id_alice_by_id : Context.t :=
  {| Context.user :=
       JsObject {| Identity._id := Some "u2"; Identity.id := Some "u1" |} |}.

(** * Properties *)

(** ** Lists of books *)

Lemma existsb_eq_dec_In (b : BookInput) (l : list BookDocument) :
  existsb (fun x => if BookInput_eq_dec x b then true else false) l = true
  <-> In b l.
Proof.
  rewrite existsb_exists. split.
  - intros [x [Hin Hx]]. destruct (BookInput_eq_dec x b); congruence.
  - intros Hin. exists b. split; [assumption|].
    destruct (BookInput_eq_dec b b); congruence.
Qed.

Lemma addToSet_present (b : BookInput) (l : list BookDocument) :
  In b l -> User.addToSet b l = l.
Proof.
  intros Hin. unfold User.addToSet.
  apply existsb_eq_dec_In in Hin. now rewrite Hin.
Qed.

Lemma addToSet_absent (b : BookInput) (l : list BookDocument) :
  ~ In b l -> User.addToSet b l = l ++ [b].
Proof.
  intros Hnin. unfold User.addToSet.
  destruct (existsb (fun x => if BookInput_eq_dec x b then true else false) l)
    eqn:E; [|reflexivity].
  apply existsb_eq_dec_In in E. contradiction.
Qed.

Lemma addToSet_In (b : BookInput) (l : list BookDocument) :
  In b (User.addToSet b l).
Proof.
  destruct (in_dec BookInput_eq_dec b l) as [Hin|Hnin].
  - now rewrite addToSet_present.
  - rewrite addToSet_absent by assumption. apply in_or_app. right. now left.
Qed.

Lemma addToSet_keeps (b x : BookInput) (l : list BookDocument) :
  In x l -> In x (User.addToSet b l).
Proof.
  intros Hx. destruct (in_dec BookInput_eq_dec b l) as [Hin|Hnin].
  - now rewrite addToSet_present.
  - rewrite addToSet_absent by assumption. apply in_or_app. now left.
Qed.

Lemma addToSet_idempotent (b : BookInput) (l : list BookDocument) :
  User.addToSet b (User.addToSet b l) = User.addToSet b l.
Proof. apply addToSet_present, addToSet_In. Qed.

Lemma addToSet_count (b : BookInput) (l : list BookDocument) :
  count_occ BookInput_eq_dec (User.addToSet b l) b
  = Nat.max 1 (count_occ BookInput_eq_dec l b).
Proof.
  destruct (in_dec BookInput_eq_dec b l) as [Hin|Hnin].
  - rewrite addToSet_present by assumption.
    apply (count_occ_In BookInput_eq_dec) in Hin. lia.
  - rewrite addToSet_absent by assumption.
    apply (count_occ_not_In BookInput_eq_dec) in Hnin.
    rewrite count_occ_app, Hnin. simpl.
    destruct (BookInput_eq_dec b b); [reflexivity|congruence].
Qed.

Lemma pull_In (k : string) (b : BookInput) (l : list BookDocument) :
  In b (User.pull k l) <-> In b l /\ bookId b <> k.
Proof.
  unfold User.pull. rewrite filter_In, negb_true_iff.
  split; intros [H1 H2]; split; try assumption.
  - intros E. apply String.eqb_eq in E. congruence.
  - destruct (String.eqb_spec (bookId b) k); congruence.
Qed.

Lemma pull_no_match (k : string) (l : list BookDocument) :
  (forall b, In b l -> bookId b <> k) -> User.pull k l = l.
Proof.
  intros H. induction l as [|a l IH]; [reflexivity|]. simpl.
  destruct (String.eqb_spec (bookId a) k) as [E|E]; simpl.
  - exfalso. apply (H a); [now left|assumption].
  - f_equal. apply IH. intros b Hb. apply H. now right.
Qed.

Lemma pull_length (k : string) (l : list BookDocument) :
  List.length (User.pull k l) + count_occ string_dec (map bookId l) k
  = List.length l.
Proof.
  induction l as [|a l IH]; [reflexivity|]. simpl.
  destruct (String.eqb_spec (bookId a) k) as [E|E];
    destruct (string_dec (bookId a) k); try congruence; simpl; lia.
Qed.

Lemma pull_count_other (k : string) (b : BookInput) (l : list BookDocument) :
  bookId b <> k ->
  count_occ BookInput_eq_dec (User.pull k l) b = count_occ BookInput_eq_dec l b.
Proof.
  intros Hb. induction l as [|a l IH]; [reflexivity|]. simpl.
  destruct (String.eqb_spec (bookId a) k) as [E|E]; simpl;
    destruct (BookInput_eq_dec a b); subst; try congruence.
Qed.

(** ** Updating the first matching document *)

Lemma set_savedBooks_same (d : Stored.t) :
  User.set_savedBooks d (Stored.savedBooks d) = d.
Proof. now destruct d. Qed.

Lemma matches_applyUpdate (f : Filter) (u : Update) (d : Stored.t) :
  User.matches f (User.applyUpdate u d) = User.matches f d.
Proof. destruct f as [s|s|[i|]], u; reflexivity. Qed.

Lemma matches_by__id (i : ObjectId) (d : Stored.t) :
  User.matches (by__id (Some i)) d = true -> Stored._id d = i.
Proof. simpl. apply String.eqb_eq. Qed.

Lemma find_updateFirst (f : Filter) (u : Update) (ds : list Stored.t) :
  find (User.matches f) (User.updateFirst f u ds)
  = option_map (User.applyUpdate u) (find (User.matches f) ds).
Proof.
  induction ds as [|d ds IH]; [reflexivity|]. simpl.
  destruct (User.matches f d) eqn:E; simpl.
  - now rewrite matches_applyUpdate, E.
  - now rewrite E.
Qed.

Lemma updateFirst_none (f : Filter) (u : Update) (ds : list Stored.t) :
  find (User.matches f) ds = None -> User.updateFirst f u ds = ds.
Proof.
  induction ds as [|d ds IH]; [reflexivity|]. simpl.
  destruct (User.matches f d); [discriminate|].
  intros H. now rewrite IH.
Qed.

Lemma updateFirst_split (f : Filter) (u : Update) (ds : list Stored.t)
    (d : Stored.t) :
  find (User.matches f) ds = Some d ->
  exists pre post,
    ds = pre ++ d :: post
    /\ User.updateFirst f u ds = pre ++ User.applyUpdate u d :: post
    /\ User.matches f d = true.
Proof.
  induction ds as [|a ds IH]; [discriminate|]. simpl.
  destruct (User.matches f a) eqn:E.
  - intros [= <-]. now exists [], ds.
  - intros H. destruct (IH H) as [pre [post [H1 [H2 H3]]]].
    exists (a :: pre), post. simpl. now rewrite <- H1, H2.
Qed.

Lemma updateFirst_In (f : Filter) (u : Update) (ds : list Stored.t)
    (d : Stored.t) :
  find (User.matches f) ds = Some d ->
  In (User.applyUpdate u d) (User.updateFirst f u ds).
Proof.
  intros H. destruct (updateFirst_split f u ds d H) as [pre [post [_ [-> _]]]].
  apply in_or_app. right. now left.
Qed.

(** ** What one call to the store does *)

Section Properties.
Context {C : Collaborators}.

Lemma findOne_run (f : Filter) (w : World) :
  User.findOne f w
  = (Fulfilled (option_map User.hydrate (find (User.matches f) (users w))),
     called (Call_findOne f) w).
Proof. reflexivity. Qed.

Lemma findOneAndUpdate_run (f : Filter) (u : Update) (o : Options)
    (w : World) :
  User.findOneAndUpdate f u o w
  = if runValidators o && negb (User.updateAccepted u) then
      (Rejected (StoreError ValidationFailed),
       called (Call_findOneAndUpdate f u o) w)
    else
      match find (User.matches f) (users w) with
      | None => (Fulfilled None, called (Call_findOneAndUpdate f u o) w)
      | Some d =>
          (Fulfilled
             (Some (User.hydrate (if new o then User.applyUpdate u d else d))),
           {| users := User.updateFirst f u (users w);
              trace := trace w ++ [Call_findOneAndUpdate f u o] |})
      end.
Proof.
  unfold User.findOneAndUpdate, bind, record. cbn beta iota.
  destruct (runValidators o && negb (User.updateAccepted u)); [reflexivity|].
  unfold read_users, called. cbn [users trace].
  destruct (find (User.matches f) (users w)); reflexivity.
Qed.

(** [findOneAndUpdate] never touches the collection otherwise than through
    [updateFirst]. *)
Lemma findOneAndUpdate_users (f : Filter) (u : Update) (o : Options)
    (w : World) :
  users (snd (User.findOneAndUpdate f u o w)) = users w
  \/ users (snd (User.findOneAndUpdate f u o w))
     = User.updateFirst f u (users w).
Proof.
  rewrite findOneAndUpdate_run.
  destruct (runValidators o && negb (User.updateAccepted u)); [now left|].
  destruct (find (User.matches f) (users w)); [now right|now left].
Qed.

(** ** The authentication guard *)

(** C4: when [context.user] is falsy, [me] throws
    [new AuthenticationError("Not Authenticated")] and leaves the world as it
    found it: the collection is the same and the trace of collaborator calls
    has not grown, so no store call was made. *)
Theorem me_unauthenticated (context : Context.t) (w : World) :
  truthy (Context.user context) = false ->
  Query.me context w
  = (Rejected (new_AuthenticationError "Not Authenticated"), w).
Proof.
  intros Hfalsy. unfold Query.me. now rewrite Hfalsy.
Qed.

(** C3: when [context.user] is falsy, [saveBook] and [deleteBook] both throw
    [new AuthenticationError("Could not find user")] and leave the world as
    they found it: no document is changed and no store call is made. *)
Theorem saveBook_deleteBook_unauthenticated
    (context : Context.t) (w : World)
    (sargs : SaveBookArgs.t) (dargs : DeleteBookArgs.t) :
  truthy (Context.user context) = false ->
  Mutation.saveBook sargs context w
  = (Rejected (new_AuthenticationError "Could not find user"), w)
  /\ Mutation.deleteBook dargs context w
     = (Rejected (new_AuthenticationError "Could not find user"), w).
Proof.
  intros Hfalsy. unfold Mutation.saveBook, Mutation.deleteBook.
  now rewrite Hfalsy.
Qed.

(** ** Logging in *)

(** What [loginUser] does when no stored user has the email: it throws the
    class [AuthenticationError] itself after the one lookup. *)
Lemma loginUser_unknown_email (args : LoginArgs.t) (w : World) :
  find (User.matches (by_email (LoginArgs.email args))) (users w) = None ->
  Mutation.loginUser args w
  = (Rejected AuthenticationError,
     called (Call_findOne (by_email (LoginArgs.email args))) w).
Proof.
  intros Hnone. unfold Mutation.loginUser, bind.
  rewrite findOne_run, Hnone. reflexivity.
Qed.

(** C6: when the email finds a stored user and the supplied password fails
    the comparison with that user's stored hash, [loginUser] throws
    [new AuthenticationError("Not authenticated")]; the collection is
    unchanged, the only calls made are the lookup and the comparison, and no
    token is signed. *)
Theorem loginUser_wrong_password (args : LoginArgs.t) (w : World)
    (d : Stored.t) :
  find (User.matches (by_email (LoginArgs.email args))) (users w) = Some d ->
  compare (LoginArgs.password args) (Stored.password d) = false ->
  exists w',
    Mutation.loginUser args w
    = (Rejected (new_AuthenticationError "Not authenticated"), w')
    /\ users w' = users w
    /\ trace w'
       = trace w ++ [Call_findOne (by_email (LoginArgs.email args));
                     Call_isCorrectPassword (Stored._id d)
                       (LoginArgs.password args)]
    /\ filter is_signToken_call (trace w')
       = filter is_signToken_call (trace w).
Proof.
  intros Hfound Hwrong.
  eexists. unfold Mutation.loginUser, bind.
  rewrite findOne_run, Hfound. cbn [option_map].
  unfold User.isCorrectPassword, bind, record, ret. cbn [User.password User.hydrate].
  rewrite Hwrong. cbn [negb]. unfold throw.
  split; [reflexivity|]. unfold called. cbn [users trace User._id].
  split; [reflexivity|]. split.
  - now rewrite <- app_assoc.
  - rewrite !filter_app. cbn. now rewrite !app_nil_r.
Qed.

(** ** Deleting a book *)

(** C5: for an authenticated context whose [_id] finds the stored user [d],
    [deleteBook] succeeds and returns the updated user: every entry whose
    [bookId] is the given one is gone, every other entry is kept as many
    times as before, [bookCount] has dropped by the number of matching
    entries, the store holds the returned user, and when no entry matches
    the saved books and the collection are unchanged. *)
Theorem deleteBook_pulls_every_match
    (args : DeleteBookArgs.t) (context : Context.t) (w : World)
    (i : ObjectId) (d : Stored.t) :
  truthy (Context.user context) = true ->
  get__id (Context.user context) = Some i ->
  find (User.matches (by__id (Some i))) (users w) = Some d ->
  exists u w',
    Mutation.deleteBook args context w = (Fulfilled (Some u), w')
    /\ (forall b, In b (User.savedBooks u)
                  <-> In b (Stored.savedBooks d)
                      /\ bookId b <> DeleteBookArgs.bookId args)
    /\ (forall b, bookId b <> DeleteBookArgs.bookId args ->
                  count_occ BookInput_eq_dec (User.savedBooks u) b
                  = count_occ BookInput_eq_dec (Stored.savedBooks d) b)
    /\ User.bookCount u
       + count_occ string_dec (map bookId (Stored.savedBooks d))
           (DeleteBookArgs.bookId args)
       = List.length (Stored.savedBooks d)
    /\ option_map User.hydrate
         (find (User.matches (by__id (Some i))) (users w')) = Some u
    /\ ((forall b, In b (Stored.savedBooks d) ->
                   bookId b <> DeleteBookArgs.bookId args) ->
        User.savedBooks u = Stored.savedBooks d /\ users w' = users w).
Proof.
  intros Hauth Hid Hfound.
  unfold Mutation.deleteBook. rewrite Hauth, Hid, findOneAndUpdate_run.
  cbn [runValidators new andb]. rewrite Hfound.
  do 2 eexists. split; [reflexivity|].
  cbn [users User.applyUpdate User.hydrate User.savedBooks User.bookCount
       User.set_savedBooks Stored.savedBooks].
  split; [intros b; apply pull_In|].
  split; [intros b Hb; now apply pull_count_other|].
  split; [apply pull_length|].
  split.
  - rewrite find_updateFirst, Hfound. reflexivity.
  - intros Hnone. split; [now apply pull_no_match|].
    destruct (updateFirst_split (by__id (Some i))
                (pull_savedBooks (DeleteBookArgs.bookId args)) (users w) d
                Hfound)
      as [pre [post [E1 [E2 _]]]].
    rewrite E2, E1. cbn [User.applyUpdate].
    rewrite (pull_no_match _ _ Hnone). now rewrite set_savedBooks_same.
Qed.

(** With an authenticated context whose [_id] finds no stored user,
    [deleteBook] still succeeds, with an absent result and no change. *)
Lemma deleteBook_stale_identity
    (args : DeleteBookArgs.t) (context : Context.t) (w : World) :
  truthy (Context.user context) = true ->
  find (User.matches (by__id (get__id (Context.user context)))) (users w)
  = None ->
  exists w',
    Mutation.deleteBook args context w = (Fulfilled None, w')
    /\ users w' = users w.
Proof.
  intros Hauth Hnone. unfold Mutation.deleteBook.
  rewrite Hauth, findOneAndUpdate_run. cbn [runValidators andb].
  rewrite Hnone. eexists. split; reflexivity.
Qed.

(** ** Saving a book *)

(** A book the store's validators refuse is a store error, and nothing is
    written. *)
Lemma saveBook_refused_book
    (args : SaveBookArgs.t) (context : Context.t) (w : World) :
  truthy (Context.user context) = true ->
  bookAccepted (SaveBookArgs.input args) = false ->
  exists w',
    Mutation.saveBook args context w
    = (Rejected (StoreError ValidationFailed), w')
    /\ users w' = users w.
Proof.
  intros Hauth Hrefused. unfold Mutation.saveBook.
  rewrite Hauth, findOneAndUpdate_run.
  cbn [runValidators andb User.updateAccepted]. rewrite Hrefused.
  eexists. split; reflexivity.
Qed.

(** With an authenticated context whose [_id] finds no stored user,
    [saveBook] of an accepted book succeeds with an absent result and no
    change. *)
Lemma saveBook_stale_identity
    (args : SaveBookArgs.t) (context : Context.t) (w : World) :
  truthy (Context.user context) = true ->
  bookAccepted (SaveBookArgs.input args) = true ->
  find (User.matches (by__id (get__id (Context.user context)))) (users w)
  = None ->
  exists w',
    Mutation.saveBook args context w = (Fulfilled None, w')
    /\ users w' = users w.
Proof.
  intros Hauth Hok Hnone. unfold Mutation.saveBook.
  rewrite Hauth, findOneAndUpdate_run.
  cbn [runValidators andb User.updateAccepted]. rewrite Hok, Hnone.
  eexists. split; reflexivity.
Qed.

Lemma updateFirst_addToSet_twice (f : Filter) (b : BookInput)
    (ds : list Stored.t) :
  User.updateFirst f (addToSet_savedBooks b)
    (User.updateFirst f (addToSet_savedBooks b) ds)
  = User.updateFirst f (addToSet_savedBooks b) ds.
Proof.
  induction ds as [|d ds IH]; [reflexivity|]. cbn [User.updateFirst].
  destruct (User.matches f d) eqn:E; cbn [User.updateFirst].
  - rewrite (matches_applyUpdate f (addToSet_savedBooks b) d), E.
    cbn [User.applyUpdate]. unfold User.set_savedBooks.
    cbn [Stored.savedBooks Stored._id Stored.username Stored.email
         Stored.password].
    now rewrite addToSet_idempotent.
  - now rewrite E, IH.
Qed.

Lemma two_entries_share_bookId (k : string) (a b : BookInput)
    (l : list BookDocument) :
  In a l -> In b l -> a <> b -> bookId a = k -> bookId b = k ->
  2 <= count_occ string_dec (map bookId l) k.
Proof.
  intros Ha Hb Hab Eka Ekb.
  induction l as [|x l IH]; [contradiction|].
  simpl. destruct Ha as [->|Ha], Hb as [->|Hb].
  - congruence.
  - destruct (string_dec (bookId a) k); [|congruence].
    assert (H : In (bookId b) (map bookId l)) by now apply in_map.
    rewrite Ekb in H. apply (count_occ_In string_dec) in H. lia.
  - destruct (string_dec (bookId b) k); [|congruence].
    assert (H : In (bookId a) (map bookId l)) by now apply in_map.
    rewrite Eka in H. apply (count_occ_In string_dec) in H. lia.
  - specialize (IH Ha Hb). destruct (string_dec (bookId x) k); lia.
Qed.

(** C1, as the code has it: for an authenticated context whose [_id] finds
    the stored user [d], and a book the store's validators accept, a first
    [saveBook] returns the updated user and a second one with the same input
    returns the same user and leaves the collection as the first left it.
    The book is then held as many times as before, and once if it was not
    held: exactly once whenever it was held at most once before.  An entry
    that shares the [bookId] but differs in [title] is kept next to the new
    one, so the saved books then hold two entries with that [bookId]. *)
Theorem saveBook_dedups_on_all_fields
    (args : SaveBookArgs.t) (context : Context.t) (w : World)
    (i : ObjectId) (d : Stored.t) :
  truthy (Context.user context) = true ->
  get__id (Context.user context) = Some i ->
  find (User.matches (by__id (Some i))) (users w) = Some d ->
  bookAccepted (SaveBookArgs.input args) = true ->
  exists u w1 w2,
    Mutation.saveBook args context w = (Fulfilled (Some u), w1)
    /\ Mutation.saveBook args context w1 = (Fulfilled (Some u), w2)
    /\ users w2 = users w1
    /\ option_map User.hydrate
         (find (User.matches (by__id (Some i))) (users w1)) = Some u
    /\ count_occ BookInput_eq_dec (User.savedBooks u) (SaveBookArgs.input args)
       = Nat.max 1 (count_occ BookInput_eq_dec (Stored.savedBooks d)
                      (SaveBookArgs.input args))
    /\ (count_occ BookInput_eq_dec (Stored.savedBooks d)
          (SaveBookArgs.input args) <= 1 ->
        count_occ BookInput_eq_dec (User.savedBooks u)
          (SaveBookArgs.input args) = 1)
    /\ (forall b0,
          In b0 (Stored.savedBooks d) ->
          bookId b0 = bookId (SaveBookArgs.input args) ->
          title b0 <> title (SaveBookArgs.input args) ->
          In b0 (User.savedBooks u)
          /\ In (SaveBookArgs.input args) (User.savedBooks u)
          /\ b0 <> SaveBookArgs.input args
          /\ 2 <= count_occ string_dec (map bookId (User.savedBooks u))
                    (bookId (SaveBookArgs.input args))).
Proof.
  intros Hauth Hid Hfound Hvalid.
  destruct args as [b]. cbn [SaveBookArgs.input] in *.
  set (f := by__id (Some i)) in *.
  set (u := addToSet_savedBooks b).
  set (c := Call_findOneAndUpdate f u {| new := true; runValidators := true |}).
  assert (Hsame : User.applyUpdate u (User.applyUpdate u d)
                  = User.applyUpdate u d).
  { subst u. cbn [User.applyUpdate]. unfold User.set_savedBooks.
    cbn [Stored.savedBooks Stored._id Stored.username Stored.email
         Stored.password]. now rewrite addToSet_idempotent. }
  exists (User.hydrate (User.applyUpdate u d)),
    {| users := User.updateFirst f u (users w); trace := trace w ++ [c] |},
    {| users := User.updateFirst f u (users w);
       trace := (trace w ++ [c]) ++ [c] |}.
  unfold Mutation.saveBook. cbn [SaveBookArgs.input].
  rewrite Hauth, Hid, !findOneAndUpdate_run. fold f u c.
  cbn [runValidators new andb User.updateAccepted users trace].
  subst u. cbn [User.updateAccepted]. rewrite Hvalid. cbn [negb].
  set (u := addToSet_savedBooks b) in *.
  rewrite find_updateFirst, Hfound. cbn [option_map]. rewrite Hsame.
  split; [reflexivity|]. subst u.
  split; [now rewrite (updateFirst_addToSet_twice f b (users w))|].
  split; [reflexivity|].
  split; [reflexivity|].
  cbn [User.applyUpdate User.hydrate User.savedBooks User.set_savedBooks
       Stored.savedBooks].
  split; [apply addToSet_count|].
  split; [intros Hle; rewrite addToSet_count; lia|].
  intros b0 Hin Hk Ht.
  assert (Hne : b0 <> b) by (intros ->; now apply Ht).
  repeat split.
  - now apply addToSet_keeps.
  - apply addToSet_In.
  - exact Hne.
  - apply (two_entries_share_bookId _ b0 b); trivial.
    + now apply addToSet_keeps.
    + apply addToSet_In.
Qed.

(** ** The frame of [saveBook] and [deleteBook] *)

Lemma same_identity_applyUpdate (u : Update) (d : Stored.t) :
  same_identity d (User.applyUpdate u d).
Proof. destruct u; repeat split. Qed.

Lemma updateFirst_frame (context : Context.t) (u : Update)
    (ds : list Stored.t) :
  only_target_savedBooks context ds
    (User.updateFirst (by__id (get__id (Context.user context))) u ds).
Proof.
  destruct (find (User.matches (by__id (get__id (Context.user context)))) ds)
    as [d|] eqn:Hfind.
  - right.
    destruct (updateFirst_split _ u ds d Hfind) as [pre [post [E1 [E2 Hm]]]].
    exists pre, d, (User.applyUpdate u d), post.
    split; [exact E1|]. split; [exact E2|].
    split; [|apply same_identity_applyUpdate].
    destruct (get__id (Context.user context)) as [i|]; [|discriminate].
    apply matches_by__id in Hm. now rewrite Hm.
  - left. now apply updateFirst_none.
Qed.

(** C9: whatever the context and the outcome, [saveBook] and [deleteBook]
    leave the collection as it was or replace exactly one document in place,
    the one whose [_id] is [context.user._id], by a document with the same
    [_id], [username], [email] and [password]; every other document is the
    same, at the same place. *)
Theorem saveBook_deleteBook_frame
    (sargs : SaveBookArgs.t) (dargs : DeleteBookArgs.t)
    (context : Context.t) (w : World) :
  only_target_savedBooks context (users w)
    (users (snd (Mutation.saveBook sargs context w)))
  /\ only_target_savedBooks context (users w)
       (users (snd (Mutation.deleteBook dargs context w))).
Proof.
  unfold Mutation.saveBook, Mutation.deleteBook.
  destruct (truthy (Context.user context)); [|split; now left].
  split.
  - destruct (findOneAndUpdate_users
                (by__id (get__id (Context.user context)))
                (addToSet_savedBooks (SaveBookArgs.input sargs))
                {| new := true; runValidators := true |} w) as [E|E];
      rewrite E; [now left|apply updateFirst_frame].
  - destruct (findOneAndUpdate_users
                (by__id (get__id (Context.user context)))
                (pull_savedBooks (DeleteBookArgs.bookId dargs))
                {| new := true; runValidators := false |} w) as [E|E];
      rewrite E; [now left|apply updateFirst_frame].
Qed.

(** ** A context user without an [_id] *)

(** A truthy [context.user] with no [_id] (whatever else it carries, an
    [id] included) passes the guard of [me], [saveBook] and [deleteBook];
    each makes its one store call keyed on the absent [_id], which matches
    no document: [me] and [deleteBook] return an absent result, [saveBook]
    does too unless the store's validators refuse the book, and the
    collection is unchanged.  None throws an authentication error. *)
Theorem truthy_user_without__id
    (sargs : SaveBookArgs.t) (dargs : DeleteBookArgs.t)
    (context : Context.t) (w : World) :
  truthy (Context.user context) = true ->
  get__id (Context.user context) = None ->
  Query.me context w
  = (Fulfilled None, called (Call_findOne (by__id None)) w)
  /\ Mutation.deleteBook dargs context w
     = (Fulfilled None,
        called (Call_findOneAndUpdate (by__id None)
                  (pull_savedBooks (DeleteBookArgs.bookId dargs))
                  {| new := true; runValidators := false |}) w)
  /\ Mutation.saveBook sargs context w
     = (if bookAccepted (SaveBookArgs.input sargs)
        then Fulfilled None
        else Rejected (StoreError ValidationFailed),
        called (Call_findOneAndUpdate (by__id None)
                  (addToSet_savedBooks (SaveBookArgs.input sargs))
                  {| new := true; runValidators := true |}) w).
Proof.
  intros Hauth Hid.
  assert (Hnone : find (User.matches (by__id None)) (users w) = None).
  { induction (users w) as [|d ds IH]; [reflexivity|exact IH]. }
  unfold Query.me, Mutation.deleteBook, Mutation.saveBook.
  rewrite Hauth, Hid, findOne_run, !findOneAndUpdate_run, Hnone.
  cbn [runValidators andb option_map User.updateAccepted].
  repeat split.
  destruct (bookAccepted (SaveBookArgs.input sargs)); reflexivity.
Qed.

(** The target of the three guarded resolvers is read from [_id] alone: two
    truthy context users with the same [_id] are served alike. *)
Lemma target_is__id_alone
    (sargs : SaveBookArgs.t) (dargs : DeleteBookArgs.t)
    (c1 c2 : Context.t) (w : World) :
  truthy (Context.user c1) = true ->
  truthy (Context.user c2) = true ->
  get__id (Context.user c1) = get__id (Context.user c2) ->
  Query.me c1 w = Query.me c2 w
  /\ Mutation.saveBook sargs c1 w = Mutation.saveBook sargs c2 w
  /\ Mutation.deleteBook dargs c1 w = Mutation.deleteBook dargs c2 w.
Proof.
  intros H1 H2 E. unfold Query.me, Mutation.saveBook, Mutation.deleteBook.
  now rewrite H1, H2, E.
Qed.

(** ** Creating a user *)

Lemma createUser_run (args : CreateUserArgs.t) (w : World) :
  Mutation.createUser args w
  = let input := CreateUserArgs.input args in
    if createAccepted (users w) input then
      let d := {|
        Stored._id := newObjectId (users w);
        Stored.username := CreateUserArgs.username input;
        Stored.email := CreateUserArgs.email input;
        Stored.password := hash (CreateUserArgs.password input);
        Stored.savedBooks := CreateUserArgs.savedBooks input
      |} in
      (Fulfilled
         {| Auth.user := User.hydrate d;
            Auth.token := sign (Stored.username d) (Stored.email d)
                            (Stored._id d) |},
       {| users := users w ++ [d];
          trace := (trace w ++ [Call_create input])
                   ++ [Call_signToken (Stored.username d) (Stored.email d)
                         (Stored._id d)] |})
    else
      (Rejected (StoreError CreateRefused), called (Call_create input) w).
Proof.
  unfold Mutation.createUser, User.create, bind, record, read_users, called.
  cbn [users trace].
  destruct (createAccepted (users w) (CreateUserArgs.input args)); reflexivity.
Qed.

(** C7: a [createUser] that succeeds has added exactly one document to the
    collection, at its end: it carries the username, email and saved books
    of the input and the store's hash of the input password; the returned
    user is that document as read back, the returned token is the one signed
    from its username, email and identifier, and the calls made are the one
    creation and the one signature. *)
Theorem createUser_success (args : CreateUserArgs.t) (w w' : World)
    (r : Auth.t) :
  Mutation.createUser args w = (Fulfilled r, w') ->
  exists d,
    users w' = users w ++ [d]
    /\ Stored.username d = CreateUserArgs.username (CreateUserArgs.input args)
    /\ Stored.email d = CreateUserArgs.email (CreateUserArgs.input args)
    /\ Stored.password d
       = hash (CreateUserArgs.password (CreateUserArgs.input args))
    /\ Stored.savedBooks d
       = CreateUserArgs.savedBooks (CreateUserArgs.input args)
    /\ Stored._id d = newObjectId (users w)
    /\ Auth.user r = User.hydrate d
    /\ Auth.token r
       = sign (User.username (Auth.user r)) (User.email (Auth.user r))
           (User.id (Auth.user r))
    /\ User.id (Auth.user r) = User._id (Auth.user r)
    /\ trace w'
       = trace w ++ [Call_create (CreateUserArgs.input args);
                     Call_signToken (Stored.username d) (Stored.email d)
                       (Stored._id d)].
Proof.
  rewrite createUser_run. cbv zeta.
  destruct (createAccepted (users w) (CreateUserArgs.input args));
    [|discriminate].
  intros [= <- <-]. eexists. cbn [users trace Auth.user Auth.token].
  repeat split. now rewrite <- app_assoc.
Qed.

(** [createUser] succeeds exactly when the store accepts the document. *)
Lemma createUser_succeeds_iff (args : CreateUserArgs.t) (w : World) :
  createAccepted (users w) (CreateUserArgs.input args) = true
  <-> exists r w', Mutation.createUser args w = (Fulfilled r, w').
Proof.
  rewrite createUser_run. cbv zeta.
  destruct (createAccepted (users w) (CreateUserArgs.input args)).
  - split; [intros _; now do 2 eexists|reflexivity].
  - split; [discriminate|intros [r [w' H]]; discriminate].
Qed.

(** ** The derived count *)

Lemma findOne_returns_stored (f : Filter) (w w' : World) (u : User.t) :
  User.findOne f w = (Fulfilled (Some u), w') ->
  exists d, In d (users w') /\ u = User.hydrate d.
Proof.
  rewrite findOne_run.
  destruct (find (User.matches f) (users w)) as [d|] eqn:Hfind;
    [|discriminate].
  intros [= <- <-]. exists d. split; [|reflexivity].
  apply find_some in Hfind. exact (proj1 Hfind).
Qed.

Lemma findOneAndUpdate_new_returns_stored
    (f : Filter) (upd : Update) (o : Options) (w w' : World) (u : User.t) :
  new o = true ->
  User.findOneAndUpdate f upd o w = (Fulfilled (Some u), w') ->
  exists d, In d (users w') /\ u = User.hydrate d.
Proof.
  intros Hnew. rewrite findOneAndUpdate_run, Hnew.
  destruct (runValidators o && negb (User.updateAccepted upd));
    [discriminate|].
  destruct (find (User.matches f) (users w)) as [d|] eqn:Hfind;
    [|discriminate].
  intros [= <- <-]. exists (User.applyUpdate upd d).
  split; [|reflexivity]. cbn [users]. now apply updateFirst_In.
Qed.

(** C8: whenever one of the six operations hands back a User value, that
    value is a stored document of the resulting collection as read back, so
    its [bookCount] is the length of its [savedBooks], which are the saved
    books the store holds for it at that moment; the stored document itself
    has no count field. *)
Theorem returned_bookCount_is_length
    (op : Operation) (w w' : World) (u : User.t) :
  run op w = (Fulfilled (Some u), w') ->
  User.bookCount u = List.length (User.savedBooks u)
  /\ exists d,
       In d (users w')
       /\ u = User.hydrate d
       /\ User.bookCount u = List.length (Stored.savedBooks d).
Proof.
  intros Hrun.
  assert (Hd : exists d, In d (users w') /\ u = User.hydrate d).
  { destruct op as [args|context|args|args|args context|args context];
      cbn [run] in Hrun.
    - eapply findOne_returns_stored; exact Hrun.
    - unfold Query.me in Hrun.
      destruct (truthy (Context.user context)); [|discriminate].
      eapply findOne_returns_stored; exact Hrun.
    - unfold bind in Hrun.
      destruct (Mutation.createUser args w) as [[r|e] w1] eqn:Hc;
        [|discriminate].
      injection Hrun as <- <-.
      rewrite createUser_run in Hc. cbv zeta in Hc.
      destruct (createAccepted (users w) (CreateUserArgs.input args));
        [|discriminate].
      injection Hc as <- <-. eexists. split; [|reflexivity].
      cbn [users]. apply in_or_app. right. now left.
    - unfold bind in Hrun.
      destruct (Mutation.loginUser args w) as [[r|e] w1] eqn:Hl;
        [|discriminate].
      injection Hrun as <- <-.
      unfold Mutation.loginUser, bind in Hl. rewrite findOne_run in Hl.
      destruct (find (User.matches (by_email (LoginArgs.email args)))
                  (users w)) as [d|] eqn:Hfind; [|discriminate].
      cbn [option_map] in Hl.
      unfold User.isCorrectPassword, bind, record, ret in Hl.
      destruct (compare (LoginArgs.password args)
                  (User.password (User.hydrate d))); [|discriminate].
      cbn [negb] in Hl. unfold signToken, bind, record, ret in Hl.
      injection Hl as <- <-. exists d. split; [|reflexivity].
      cbn [users called]. apply find_some in Hfind. exact (proj1 Hfind).
    - unfold Mutation.saveBook in Hrun.
      destruct (truthy (Context.user context)); [|discriminate].
      eapply findOneAndUpdate_new_returns_stored; [|exact Hrun]; reflexivity.
    - unfold Mutation.deleteBook in Hrun.
      destruct (truthy (Context.user context)); [|discriminate].
      eapply findOneAndUpdate_new_returns_stored; [|exact Hrun]; reflexivity. }
  destruct Hd as [d [Hin ->]]. split; [reflexivity|].
  exists d. repeat split. exact Hin.
Qed.

End Properties.

(** * The resolvers on concrete requests *)

(** The falsy values of the embedding are the six JavaScript ones. *)
Lemma falsy_values (v : JsValue) :
  truthy v = false
  <-> v = JsUndefined \/ v = JsNull \/ v = JsBoolean false
      \/ v = JsNumber 0 \/ v = JsNaN \/ v = JsString EmptyString.
Proof.
  split.
  - destruct v as [| |b|n| |s|o]; cbn [truthy]; intros H.
    + auto.
    + auto.
    + subst b. auto.
    + apply negb_false_iff, Z.eqb_eq in H. subst n. auto 6.
    + auto 6.
    + apply negb_false_iff, String.eqb_eq in H. subst s. auto 7.
    + discriminate.
  - intros [->|[->|[->|[->|[->| ->]]]]]; reflexivity.
Qed.

(** C2, at a concrete request: with users alice and bob stored, logging in
    with an email neither of them has makes the one lookup and then throws
    the class [AuthenticationError] itself, which is not an instance of
    [AuthenticationError]; the sibling branch for a wrong password throws a
    proper instance. *)
Theorem loginUser_unknown_email_throws_the_class :
  Mutation.loginUser (C:=sample)
    {| LoginArgs.email := "nobody@x.com"; LoginArgs.password := "p" |}
    two_users
  = (Rejected AuthenticationError,
     called (Call_findOne (by_email "nobody@x.com")) two_users)
  /\ instanceof_AuthenticationError AuthenticationError = false
  /\ fst (Mutation.loginUser (C:=sample)
            {| LoginArgs.email := "a@x.com"; LoginArgs.password := "wrong" |}
            two_users)
     = Rejected (new_AuthenticationError "Not authenticated")
  /\ instanceof_AuthenticationError
       (new_AuthenticationError "Not authenticated") = true.
Proof.
  split; [apply (@loginUser_unknown_email sample); reflexivity|].
  repeat split.
Qed.

(** C1 as stated fails: [createUser] stores the saved books of its input as
    they come, here the same book twice; two [saveBook] calls with that very
    book, by that user, then both succeed and leave two copies of it. *)
Lemma saveBook_twice_keeps_two_copies :
  Mutation.createUser (C:=sample) carol_args empty_world
  = (Fulfilled carol_auth, carol_world)
  /\ truthy (Context.user (as_user (User.id (Auth.user carol_auth)))) = true
  /\ bookAccepted (Collaborators:=sample) dune = true
  /\ exists u w1 w2,
       Mutation.saveBook (C:=sample) {| SaveBookArgs.input := dune |}
         (as_user (User.id (Auth.user carol_auth))) carol_world
       = (Fulfilled (Some u), w1)
       /\ Mutation.saveBook (C:=sample) {| SaveBookArgs.input := dune |}
            (as_user (User.id (Auth.user carol_auth))) w1
          = (Fulfilled (Some u), w2)
       /\ User.savedBooks u = [dune; dune]
       /\ count_occ BookInput_eq_dec (User.savedBooks u) dune = 2
       /\ map Stored.savedBooks (users w2) = [[dune; dune]].
Proof.
  split; [reflexivity|]. split; [reflexivity|]. split; [reflexivity|].
  do 3 eexists.
  split; [vm_compute; reflexivity|].
  split; [vm_compute; reflexivity|].
  split; [reflexivity|]. split; [vm_compute; reflexivity|reflexivity].
Qed.

(** C1: alice holds [dune]; saving the retitled [dune] twice adds it once,
    next to the entry that shares its [bookId]. *)
Lemma saveBook_dedups_on_all_fields_witness :
  exists u w1 w2,
    Mutation.saveBook (C:=sample) {| SaveBookArgs.input := dune_retitled |}
      (as_user "u1") two_users = (Fulfilled (Some u), w1)
    /\ Mutation.saveBook (C:=sample) {| SaveBookArgs.input := dune_retitled |}
         (as_user "u1") w1 = (Fulfilled (Some u), w2)
    /\ users w2 = users w1
    /\ count_occ BookInput_eq_dec (User.savedBooks u) dune_retitled = 1
    /\ In dune (User.savedBooks u)
    /\ 2 <= count_occ string_dec (map bookId (User.savedBooks u)) "b1".
Proof.
  destruct (@saveBook_dedups_on_all_fields sample
              {| SaveBookArgs.input := dune_retitled |} (as_user "u1")
              two_users "u1" alice eq_refl eq_refl eq_refl eq_refl)
    as [u [w1 [w2 [H1 [H2 [H3 [_ [_ [H4 H5]]]]]]]]].
  exists u, w1, w2.
  split; [exact H1|]. split; [exact H2|]. split; [exact H3|].
  split; [apply H4; vm_compute; lia|].
  destruct (H5 dune) as [Hin [_ [_ Hc]]].
  - simpl. now left.
  - reflexivity.
  - discriminate.
  - split; [exact Hin|exact Hc].
Defined.

(** C3: [saveBook] and [deleteBook] with no [context.user]. *)
Lemma saveBook_deleteBook_unauthenticated_witness :
  Mutation.saveBook (C:=sample) {| SaveBookArgs.input := emma |} anonymous
    two_users
  = (Rejected (new_AuthenticationError "Could not find user"), two_users)
  /\ Mutation.deleteBook (C:=sample) {| DeleteBookArgs.bookId := "b1" |}
       anonymous two_users
     = (Rejected (new_AuthenticationError "Could not find user"), two_users).
Proof.
  apply (@saveBook_deleteBook_unauthenticated sample anonymous two_users).
  reflexivity.
Defined.

(** C4: [me] with a [context.user] that is the number zero. *)
Lemma me_unauthenticated_witness :
  Query.me {| Context.user := JsNumber 0 |} two_users
  = (Rejected (new_AuthenticationError "Not Authenticated"), two_users).
Proof.
  apply (@me_unauthenticated {| Context.user := JsNumber 0 |} two_users).
  reflexivity.
Defined.

(** C5: bob holds two entries with [bookId] "b1"; deleting "b1" removes
    both and takes his count from three to one. *)
Lemma deleteBook_pulls_every_match_witness :
  exists u w',
    Mutation.deleteBook (C:=sample) {| DeleteBookArgs.bookId := "b1" |}
      (as_user "u2") two_users = (Fulfilled (Some u), w')
    /\ User.bookCount u + 2 = 3
    /\ (forall b, In b (User.savedBooks u) <-> In b (Stored.savedBooks bob)
                                               /\ bookId b <> "b1").
Proof.
  destruct (@deleteBook_pulls_every_match sample
              {| DeleteBookArgs.bookId := "b1" |} (as_user "u2") two_users
              "u2" bob eq_refl eq_refl eq_refl)
    as [u [w' [H1 [H2 [_ [H3 _]]]]]].
  exists u, w'. split; [exact H1|]. split; [exact H3|exact H2].
Defined.

(** C6: alice's email with a password that is not hers. *)
Lemma loginUser_wrong_password_witness :
  exists w',
    Mutation.loginUser (C:=sample)
      {| LoginArgs.email := "a@x.com"; LoginArgs.password := "wrong" |}
      two_users
    = (Rejected (new_AuthenticationError "Not authenticated"), w')
    /\ users w' = users two_users
    /\ filter is_signToken_call (trace w') = [].
Proof.
  destruct (@loginUser_wrong_password sample
              {| LoginArgs.email := "a@x.com"; LoginArgs.password := "wrong" |}
              two_users alice eq_refl eq_refl)
    as [w' [H1 [H2 [_ H3]]]].
  exists w'. split; [exact H1|]. split; [exact H2|exact H3].
Defined.

(** C7: creating carol in the empty world. *)
Lemma createUser_success_witness :
  exists d,
    users carol_world = users empty_world ++ [d]
    /\ Stored.username d = "carol"
    /\ Stored.email d = "c@x.com"
    /\ Stored.savedBooks d = [dune; dune]
    /\ Auth.user carol_auth = User.hydrate d
    /\ Auth.token carol_auth
       = sign (Collaborators:=sample) "carol" "c@x.com" (Stored._id d).
Proof.
  destruct (@createUser_success sample carol_args empty_world carol_world
              carol_auth eq_refl)
    as [d [H1 [H2 [H3 [_ [H4 [H5 [H6 _]]]]]]]].
  exists d. split; [exact H1|]. split; [exact H2|]. split; [exact H3|].
  split; [exact H4|]. split; [exact H6|]. now rewrite H5.
Defined.

(** C8: [me] as bob returns bob with a count of three. *)
Lemma returned_bookCount_is_length_witness :
  User.bookCount (User.hydrate bob)
  = List.length (User.savedBooks (User.hydrate bob))
  /\ exists d,
       In d (users (called (Call_findOne (by__id (Some "u2"))) two_users))
       /\ User.hydrate bob = User.hydrate d
       /\ User.bookCount (User.hydrate bob)
          = List.length (Stored.savedBooks d).
Proof.
  apply (@returned_bookCount_is_length sample (op_me (as_user "u2")) two_users
           (called (Call_findOne (by__id (Some "u2"))) two_users)
           (User.hydrate bob)).
  reflexivity.
Defined.

(** A context user carrying alice's identifier as [id], and no [_id],
    reaches nobody. *)
Lemma truthy_user_without__id_witness :
  Query.me (id_only "u1") two_users
  = (Fulfilled None, called (Call_findOne (by__id None)) two_users)
  /\ fst (Mutation.deleteBook (C:=sample) {| DeleteBookArgs.bookId := "b1" |}
            (id_only "u1") two_users) = Fulfilled None
  /\ fst (Mutation.saveBook (C:=sample) {| SaveBookArgs.input := emma |}
            (id_only "u1") two_users) = Fulfilled None.
Proof.
  destruct (@truthy_user_without__id sample {| SaveBookArgs.input := emma |}
              {| DeleteBookArgs.bookId := "b1" |} (id_only "u1") two_users
              eq_refl eq_refl)
    as [H1 [H2 H3]].
  split; [exact H1|]. split; [now rewrite H2|now rewrite H3].
Defined.

(** * Further properties of the resolvers *)

Section Composition.
Context {C : Collaborators}.

(** ** What one resolver call does, in full *)

Lemma loginUser_run (args : LoginArgs.t) (w : World) :
  Mutation.loginUser args w
  = let c1 := Call_findOne (by_email (LoginArgs.email args)) in
    match find (User.matches (by_email (LoginArgs.email args))) (users w) with
    | None => (Rejected AuthenticationError, called c1 w)
    | Some d =>
        let c2 := Call_isCorrectPassword (Stored._id d)
                    (LoginArgs.password args) in
        if compare (LoginArgs.password args) (Stored.password d) then
          (Fulfilled
             {| Auth.token := sign (Stored.username d) (Stored.email d)
                                (Stored._id d);
                Auth.user := User.hydrate d |},
           {| users := users w;
              trace := ((trace w ++ [c1]) ++ [c2])
                       ++ [Call_signToken (Stored.username d)
                             (Stored.email d) (Stored._id d)] |})
        else
          (Rejected (new_AuthenticationError "Not authenticated"),
           {| users := users w; trace := (trace w ++ [c1]) ++ [c2] |})
    end.
Proof.
  unfold Mutation.loginUser, bind. rewrite findOne_run. cbv zeta.
  destruct (find (User.matches (by_email (LoginArgs.email args))) (users w))
    as [d|]; [|reflexivity].
  cbn [option_map]. unfold User.isCorrectPassword, bind, record, ret.
  cbn [User.password User.hydrate User._id].
  destruct (compare (LoginArgs.password args) (Stored.password d));
    reflexivity.
Qed.

Lemma find_app_none (f : Filter) (ds : list Stored.t) (d : Stored.t) :
  find (User.matches f) ds = None ->
  find (User.matches f) (ds ++ [d])
  = if User.matches f d then Some d else None.
Proof.
  induction ds as [|a ds IH]; [reflexivity|]. simpl.
  destruct (User.matches f a); [discriminate|exact IH].
Qed.

(** ** Logging in *)

(** X2: a [loginUser] that fulfils returns a stored user whose email is the
    one supplied and whose stored hash the supplied password compared
    correct with, together with the token signed from that user's username,
    email and id; the collection is unchanged. *)
Theorem loginUser_fulfilled_is_authentic
    (args : LoginArgs.t) (w w' : World) (r : Auth.t) :
  Mutation.loginUser args w = (Fulfilled r, w') ->
  User.email (Auth.user r) = LoginArgs.email args
  /\ compare (LoginArgs.password args) (User.password (Auth.user r)) = true
  /\ Auth.token r
     = sign (User.username (Auth.user r)) (User.email (Auth.user r))
         (User.id (Auth.user r))
  /\ (exists d, In d (users w) /\ Auth.user r = User.hydrate d)
  /\ users w' = users w.
Proof.
  rewrite loginUser_run. cbv zeta.
  destruct (find (User.matches (by_email (LoginArgs.email args))) (users w))
    as [d|] eqn:Hfind; [|discriminate].
  destruct (compare (LoginArgs.password args) (Stored.password d)) eqn:Hpw;
    [|discriminate].
  intros [= <- <-]. apply find_some in Hfind. destruct Hfind as [Hin Hm].
  simpl in Hm. apply String.eqb_eq in Hm.
  cbn [Auth.user Auth.token User.hydrate User.email User.password
       User.username User.id users].
  repeat split; try assumption. now exists d.
Qed.

(** X3: a user that [createUser] has just created, with an email no stored
    user had, can log in with the same credentials as soon as the hasher
    recognises the password it hashed: [loginUser] then fulfils with the
    very user and token [createUser] returned, and stores nothing. *)
Theorem createUser_then_loginUser
    (args : CreateUserArgs.t) (w w1 : World) (r : Auth.t) :
  Mutation.createUser args w = (Fulfilled r, w1) ->
  find (User.matches
          (by_email (CreateUserArgs.email (CreateUserArgs.input args))))
       (users w) = None ->
  compare (CreateUserArgs.password (CreateUserArgs.input args))
          (hash (CreateUserArgs.password (CreateUserArgs.input args)))
  = true ->
  exists w2,
    Mutation.loginUser (credentials args) w1 = (Fulfilled r, w2)
    /\ users w2 = users w1.
Proof.
  intros Hcreate Hfresh Hpw.
  rewrite createUser_run in Hcreate. cbv zeta in Hcreate.
  destruct (createAccepted (users w) (CreateUserArgs.input args));
    [|discriminate].
  injection Hcreate as <- <-.
  rewrite loginUser_run. cbv zeta. unfold credentials.
  cbn [LoginArgs.email LoginArgs.password users].
  rewrite (find_app_none _ _ _ Hfresh).
  cbn [User.matches Stored.email]. rewrite String.eqb_refl.
  cbn [Stored.password]. rewrite Hpw.
  eexists. split; reflexivity.
Qed.

(** ** Creating a user the store refuses *)

(** X4: when the store refuses the document, [createUser] rejects with the
    store's own error, stores nothing and signs no token: the only call
    made is the creation attempt. *)
Theorem createUser_refused (args : CreateUserArgs.t) (w : World) :
  createAccepted (users w) (CreateUserArgs.input args) = false ->
  Mutation.createUser args w
  = (Rejected (StoreError CreateRefused),
     {| users := users w;
        trace := trace w ++ [Call_create (CreateUserArgs.input args)] |}).
Proof.
  intros Hrefused. rewrite createUser_run. cbv zeta. now rewrite Hrefused.
Qed.

(** ** Two updates in a row *)

Lemma get__id_truthy (v : JsValue) (i : ObjectId) :
  get__id v = Some i -> truthy v = true.
Proof. destruct v; simpl; intros H; try discriminate; reflexivity. Qed.

Lemma updateFirst_twice (f : Filter) (u1 u2 : Update) (ds : list Stored.t)
    (d : Stored.t) :
  find (User.matches f) ds = Some d ->
  exists pre post,
    ds = pre ++ d :: post
    /\ User.updateFirst f u1 ds = pre ++ User.applyUpdate u1 d :: post
    /\ User.updateFirst f u2 (User.updateFirst f u1 ds)
       = pre ++ User.applyUpdate u2 (User.applyUpdate u1 d) :: post.
Proof.
  induction ds as [|a ds IH]; [discriminate|]. cbn [find User.updateFirst].
  destruct (User.matches f a) eqn:E.
  - intros [= <-]. exists [], ds. cbn [User.updateFirst app].
    now rewrite matches_applyUpdate, E.
  - intros H. destruct (IH H) as [pre [post [H1 [H2 H3]]]].
    exists (a :: pre), post. cbn [User.updateFirst app].
    now rewrite E, H3, H2, <- H1.
Qed.

Lemma pull_idempotent (k : string) (l : list BookDocument) :
  User.pull k (User.pull k l) = User.pull k l.
Proof.
  apply pull_no_match. intros b Hb. apply pull_In in Hb. tauto.
Qed.

Lemma pull_app (k : string) (l1 l2 : list BookDocument) :
  User.pull k (l1 ++ l2) = User.pull k l1 ++ User.pull k l2.
Proof. apply filter_app. Qed.

Lemma saveBook_run (args : SaveBookArgs.t) (context : Context.t)
    (w : World) :
  truthy (Context.user context) = true ->
  Mutation.saveBook args context w
  = User.findOneAndUpdate (by__id (get__id (Context.user context)))
      (addToSet_savedBooks (SaveBookArgs.input args))
      {| new := true; runValidators := true |} w.
Proof. intros H. unfold Mutation.saveBook. now rewrite H. Qed.

Lemma deleteBook_run (args : DeleteBookArgs.t) (context : Context.t)
    (w : World) :
  truthy (Context.user context) = true ->
  Mutation.deleteBook args context w
  = User.findOneAndUpdate (by__id (get__id (Context.user context)))
      (pull_savedBooks (DeleteBookArgs.bookId args))
      {| new := true; runValidators := false |} w.
Proof. intros H. unfold Mutation.deleteBook. now rewrite H. Qed.

(** A fulfilled find-and-update with [new: true] returns the first match of
    the resulting collection. *)
Lemma findOneAndUpdate_new_then_find
    (f : Filter) (upd : Update) (o : Options) (w w' : World) (u : User.t) :
  new o = true ->
  User.findOneAndUpdate f upd o w = (Fulfilled (Some u), w') ->
  option_map User.hydrate (find (User.matches f) (users w')) = Some u.
Proof.
  intros Hnew. rewrite findOneAndUpdate_run, Hnew.
  destruct (runValidators o && negb (User.updateAccepted upd));
    [discriminate|].
  destruct (find (User.matches f) (users w)) as [d|] eqn:Hfind;
    [|discriminate].
  intros [= <- <-]. cbn [users]. now rewrite find_updateFirst, Hfind.
Qed.

(** ** Reading after writing *)

(** X5: after a [saveBook] or a [deleteBook] that returned a user, [me] with
    the same context returns that same user, through one lookup. *)
Theorem me_reads_what_was_written
    (sargs : SaveBookArgs.t) (dargs : DeleteBookArgs.t)
    (context : Context.t) (w w' : World) (u : User.t) :
  Mutation.saveBook sargs context w = (Fulfilled (Some u), w')
  \/ Mutation.deleteBook dargs context w = (Fulfilled (Some u), w') ->
  Query.me context w'
  = (Fulfilled (Some u),
     called (Call_findOne (by__id (get__id (Context.user context)))) w').
Proof.
  intros H. unfold Query.me.
  destruct (truthy (Context.user context)) eqn:Hauth.
  - rewrite findOne_run. destruct H as [H|H].
    + rewrite saveBook_run in H by assumption.
      apply findOneAndUpdate_new_then_find in H; [|reflexivity].
      now rewrite H.
    + rewrite deleteBook_run in H by assumption.
      apply findOneAndUpdate_new_then_find in H; [|reflexivity].
      now rewrite H.
  - unfold Mutation.saveBook, Mutation.deleteBook in H. rewrite Hauth in H.
    destruct H; discriminate.
Qed.

(** ** Saving, then deleting *)

(** X6: when the user held no entry with the book's [bookId], saving the
    book and then deleting that [bookId] brings the collection back to what
    it was: the count goes up by one and comes back, and the user returned
    last is the user as stored at the start. *)
Theorem deleteBook_undoes_saveBook
    (b : BookInput) (context : Context.t) (w : World)
    (i : ObjectId) (d : Stored.t) :
  get__id (Context.user context) = Some i ->
  find (User.matches (by__id (Some i))) (users w) = Some d ->
  bookAccepted b = true ->
  count_occ string_dec (map bookId (Stored.savedBooks d)) (bookId b) = 0 ->
  exists u1 w1 w2,
    Mutation.saveBook {| SaveBookArgs.input := b |} context w
    = (Fulfilled (Some u1), w1)
    /\ Mutation.deleteBook {| DeleteBookArgs.bookId := bookId b |} context w1
       = (Fulfilled (Some (User.hydrate d)), w2)
    /\ User.bookCount u1 = S (List.length (Stored.savedBooks d))
    /\ users w2 = users w.
Proof.
  intros Hid Hfound Hok Hnone.
  pose proof (get__id_truthy _ _ Hid) as Hauth.
  assert (Hfresh : forall x, In x (Stored.savedBooks d) -> bookId x <> bookId b).
  { intros x Hx E. apply (count_occ_not_In string_dec) in Hnone.
    apply Hnone. rewrite <- E. now apply in_map. }
  assert (Hnin : ~ In b (Stored.savedBooks d)).
  { intros Hin. now apply (Hfresh b Hin). }
  set (f := by__id (Some i)) in *.
  set (ua := addToSet_savedBooks b).
  set (ud := pull_savedBooks (bookId b)).
  destruct (updateFirst_twice f ua ud (users w) d Hfound)
    as [pre [post [E0 [E1 E2]]]].
  assert (Hback : User.applyUpdate ud (User.applyUpdate ua d) = d).
  { subst ua ud. cbn [User.applyUpdate]. unfold User.set_savedBooks.
    cbn [Stored.savedBooks Stored._id Stored.username Stored.email
         Stored.password].
    rewrite (addToSet_absent _ _ Hnin), pull_app, (pull_no_match _ _ Hfresh).
    cbn [User.pull filter]. rewrite String.eqb_refl. cbn [negb].
    rewrite app_nil_r. now destruct d. }
  rewrite saveBook_run by assumption. cbn [SaveBookArgs.input].
  rewrite Hid, findOneAndUpdate_run. fold f ua.
  cbn [runValidators new andb]. subst ua. cbn [User.updateAccepted].
  rewrite Hok. cbn [negb]. set (ua := addToSet_savedBooks b) in *.
  rewrite Hfound. do 3 eexists. split; [reflexivity|].
  rewrite deleteBook_run by assumption. cbn [DeleteBookArgs.bookId].
  rewrite Hid, findOneAndUpdate_run. fold f ud.
  cbn [runValidators new andb users].
  rewrite find_updateFirst, Hfound. cbn [option_map]. rewrite Hback.
  split; [reflexivity|]. split.
  - subst ua. cbn [User.applyUpdate User.hydrate User.bookCount
                   User.set_savedBooks Stored.savedBooks].
    rewrite (addToSet_absent _ _ Hnin), length_app. simpl. lia.
  - cbn [users]. now rewrite E2, Hback, <- E0.
Qed.

(** ** Deleting twice *)

(** X7: [deleteBook] is idempotent, whatever the context: asked again with
    the same [bookId], it settles the same way and leaves the collection as
    the first call left it. *)
Theorem deleteBook_idempotent
    (args : DeleteBookArgs.t) (context : Context.t) (w : World) :
  fst (Mutation.deleteBook args context
         (snd (Mutation.deleteBook args context w)))
  = fst (Mutation.deleteBook args context w)
  /\ users (snd (Mutation.deleteBook args context
                   (snd (Mutation.deleteBook args context w))))
     = users (snd (Mutation.deleteBook args context w)).
Proof.
  destruct (truthy (Context.user context)) eqn:Hauth.
  - rewrite !deleteBook_run by assumption.
    set (f := by__id (get__id (Context.user context))).
    set (u := pull_savedBooks (DeleteBookArgs.bookId args)).
    rewrite (findOneAndUpdate_run f u _ w). cbn [runValidators new andb].
    destruct (find (User.matches f) (users w)) as [d|] eqn:Hfind.
    + rewrite findOneAndUpdate_run. cbn [runValidators new andb snd users].
      rewrite find_updateFirst, Hfind. cbn [option_map fst snd users].
      assert (Hsame : User.applyUpdate u (User.applyUpdate u d)
                      = User.applyUpdate u d).
      { subst u. cbn [User.applyUpdate]. unfold User.set_savedBooks.
        cbn [Stored.savedBooks Stored._id Stored.username Stored.email
             Stored.password]. now rewrite pull_idempotent. }
      rewrite Hsame. split; [reflexivity|].
      destruct (updateFirst_twice f u u (users w) d Hfind)
        as [pre [post [_ [E1 E2]]]].
      now rewrite E2, Hsame, E1.
    + rewrite findOneAndUpdate_run. cbn [runValidators new andb snd users].
      unfold called. cbn [users snd fst]. rewrite Hfind. split; reflexivity.
  - unfold Mutation.deleteBook. rewrite Hauth. split; reflexivity.
Qed.

(** ** What a fulfilled [saveBook] guarantees *)

(** X8: a [saveBook] that returns a user was made with a truthy
    [context.user] and a book the validators accept; the returned user is a
    stored user of before, with the same identity; if the book was already
    among that user's saved books they are returned exactly as they were,
    and if it was not they are returned with the book appended at the end;
    either way the book is among them now. *)
Theorem saveBook_fulfilled_keeps_earlier_books
    (args : SaveBookArgs.t) (context : Context.t) (w w' : World)
    (u : User.t) :
  Mutation.saveBook args context w = (Fulfilled (Some u), w') ->
  truthy (Context.user context) = true
  /\ bookAccepted (SaveBookArgs.input args) = true
  /\ In (SaveBookArgs.input args) (User.savedBooks u)
  /\ exists d,
       In d (users w)
       /\ get__id (Context.user context) = Some (Stored._id d)
       /\ (User._id u, User.username u, User.email u, User.password u)
          = identity d
       /\ (In (SaveBookArgs.input args) (Stored.savedBooks d) ->
           User.savedBooks u = Stored.savedBooks d)
       /\ (~ In (SaveBookArgs.input args) (Stored.savedBooks d) ->
           User.savedBooks u
           = Stored.savedBooks d ++ [SaveBookArgs.input args]).
Proof.
  unfold Mutation.saveBook.
  destruct (truthy (Context.user context)) eqn:Hauth; [|discriminate].
  rewrite findOneAndUpdate_run.
  cbn [runValidators new andb User.updateAccepted].
  destruct (bookAccepted (SaveBookArgs.input args)) eqn:Hok;
    [|discriminate].
  cbn [negb].
  destruct (find (User.matches (by__id (get__id (Context.user context))))
              (users w)) as [d|] eqn:Hfind; [|discriminate].
  intros [= <- <-]. apply find_some in Hfind. destruct Hfind as [Hin Hm].
  cbn [User.applyUpdate User.hydrate User.savedBooks User.set_savedBooks
       Stored.savedBooks User._id User.username User.email User.password
       Stored._id Stored.username Stored.email Stored.password].
  split; [reflexivity|]. split; [reflexivity|].
  split; [apply addToSet_In|].
  exists d. split; [exact Hin|]. split.
  - destruct (get__id (Context.user context)) as [i|]; [|discriminate].
    apply matches_by__id in Hm. now rewrite Hm.
  - split; [reflexivity|]. split.
    + now apply addToSet_present.
    + now apply addToSet_absent.
Qed.

(** ** Saving two books in either order *)

Lemma addToSet_swap (a b : BookInput) (l : list BookDocument) :
  Permutation (User.addToSet b (User.addToSet a l))
              (User.addToSet a (User.addToSet b l)).
Proof.
  destruct (BookInput_eq_dec a b) as [->|Hab]; [reflexivity|].
  destruct (in_dec BookInput_eq_dec a l) as [Ha|Ha],
           (in_dec BookInput_eq_dec b l) as [Hb|Hb].
  - rewrite (addToSet_present a l Ha), (addToSet_present b l Hb).
    now rewrite (addToSet_present a l Ha).
  - rewrite (addToSet_present a l Ha), (addToSet_absent b l Hb).
    rewrite addToSet_present; [reflexivity|]. apply in_or_app. now left.
  - rewrite (addToSet_absent a l Ha), (addToSet_present b l Hb).
    rewrite addToSet_present; [|apply in_or_app; now left].
    now rewrite (addToSet_absent a l Ha).
  - rewrite (addToSet_absent a l Ha), (addToSet_absent b l Hb).
    rewrite !addToSet_absent.
    + rewrite <- !app_assoc. apply Permutation_app_head. simpl.
      apply perm_swap.
    + intros H. apply in_app_or in H. destruct H as [H|[H|[]]];
        [contradiction|congruence].
    + intros H. apply in_app_or in H. destruct H as [H|[H|[]]];
        [contradiction|congruence].
Qed.

Lemma same_books_refl (ds : list Stored.t) :
  Forall2 same_books_up_to_order ds ds.
Proof.
  induction ds as [|d ds IH]; constructor; [|exact IH].
  split; reflexivity.
Qed.

Lemma updateFirst_addToSet_swap (f : Filter) (a b : BookInput)
    (ds : list Stored.t) :
  Forall2 same_books_up_to_order
    (User.updateFirst f (addToSet_savedBooks b)
       (User.updateFirst f (addToSet_savedBooks a) ds))
    (User.updateFirst f (addToSet_savedBooks a)
       (User.updateFirst f (addToSet_savedBooks b) ds)).
Proof.
  induction ds as [|d ds IH]; [constructor|]. cbn [User.updateFirst].
  destruct (User.matches f d) eqn:E; cbn [User.updateFirst].
  - rewrite !matches_applyUpdate, E. constructor; [|apply same_books_refl].
    split; [reflexivity|]. cbn [User.applyUpdate User.set_savedBooks
                                Stored.savedBooks]. apply addToSet_swap.
  - rewrite E. constructor; [split; reflexivity|exact IH].
Qed.

Lemma saveBook_users (args : SaveBookArgs.t) (context : Context.t)
    (w : World) :
  users (snd (Mutation.saveBook args context w))
  = if truthy (Context.user context)
       && bookAccepted (SaveBookArgs.input args)
    then User.updateFirst (by__id (get__id (Context.user context)))
           (addToSet_savedBooks (SaveBookArgs.input args)) (users w)
    else users w.
Proof.
  unfold Mutation.saveBook.
  destruct (truthy (Context.user context)); [|reflexivity].
  rewrite findOneAndUpdate_run.
  cbn [runValidators new andb User.updateAccepted].
  destruct (bookAccepted (SaveBookArgs.input args)); [|reflexivity].
  cbn [negb].
  destruct (find (User.matches (by__id (get__id (Context.user context))))
              (users w)) eqn:Hfind; [reflexivity|].
  cbn [snd users called]. symmetry. now apply updateFirst_none.
Qed.

(** X9: saving two books as the same user in one order or the other leaves
    the same collection up to the order of that user's saved books: every
    document keeps its place and identity, and holds the same entries. *)
Theorem saveBook_order_is_immaterial
    (a b : SaveBookArgs.t) (context : Context.t) (w : World) :
  Forall2 same_books_up_to_order
    (users (snd (Mutation.saveBook b context
                   (snd (Mutation.saveBook a context w)))))
    (users (snd (Mutation.saveBook a context
                   (snd (Mutation.saveBook b context w))))).
Proof.
  rewrite !saveBook_users.
  destruct (truthy (Context.user context)); cbn [andb];
    [|apply same_books_refl].
  destruct (bookAccepted (SaveBookArgs.input a)),
           (bookAccepted (SaveBookArgs.input b));
    try apply same_books_refl.
  apply updateFirst_addToSet_swap.
Qed.

(** ** What every operation leaves alone *)

Lemma identity_applyUpdate (u : Update) (d : Stored.t) :
  identity (User.applyUpdate u d) = identity d.
Proof. destruct u; reflexivity. Qed.

Lemma map_identity_updateFirst (f : Filter) (u : Update)
    (ds : list Stored.t) :
  map identity (User.updateFirst f u ds) = map identity ds.
Proof.
  induction ds as [|d ds IH]; [reflexivity|]. cbn [User.updateFirst].
  destruct (User.matches f d); cbn [map].
  - now rewrite identity_applyUpdate.
  - now rewrite IH.
Qed.

Lemma findOneAndUpdate_identities (f : Filter) (u : Update) (o : Options)
    (w : World) :
  map identity (users (snd (User.findOneAndUpdate f u o w)))
  = map identity (users w).
Proof.
  destruct (findOneAndUpdate_users f u o w) as [E|E]; rewrite E;
    [reflexivity|apply map_identity_updateFirst].
Qed.

(** X11: no operation removes a user, reorders the collection or rewrites
    the [_id], [username], [email] or stored password of a user: the
    identities held before are still there, in place, after any operation;
    at most one identity is added, at the end, and only by [createUser]. *)
Theorem identities_only_grow (op : Operation) (w : World) :
  exists added,
    map identity (users (snd (run op w))) = map identity (users w) ++ added
    /\ List.length added <= 1
    /\ (added <> [] -> exists args, op = op_createUser args).
Proof.
  destruct op as [args|context|args|args|args context|args context];
    cbn [run].
  - exists []. rewrite app_nil_r. unfold Query.user. rewrite findOne_run.
    repeat split; [simpl; lia|congruence].
  - exists []. rewrite app_nil_r. unfold Query.me.
    destruct (truthy (Context.user context)); [rewrite findOne_run|];
      (repeat split; [simpl; lia|congruence]).
  - unfold bind. rewrite createUser_run. cbv zeta.
    destruct (createAccepted (users w) (CreateUserArgs.input args)).
    + eexists [_]. cbn [snd users ret]. rewrite map_app.
      split; [reflexivity|]. split; [simpl; lia|]. intros _. now exists args.
    + exists []. rewrite app_nil_r.
      repeat split; [simpl; lia|congruence].
  - exists []. rewrite app_nil_r. unfold bind. rewrite loginUser_run.
    cbv zeta.
    destruct (find (User.matches (by_email (LoginArgs.email args)))
                (users w)) as [d|];
      [destruct (compare (LoginArgs.password args) (Stored.password d))|];
      (repeat split; [simpl; lia|congruence]).
  - exists []. rewrite app_nil_r. unfold Mutation.saveBook.
    destruct (truthy (Context.user context));
      [rewrite findOneAndUpdate_identities|];
      (repeat split; [simpl; lia|congruence]).
  - exists []. rewrite app_nil_r. unfold Mutation.deleteBook.
    destruct (truthy (Context.user context));
      [rewrite findOneAndUpdate_identities|];
      (repeat split; [simpl; lia|congruence]).
Qed.

(** ** What every operation asks of its collaborators *)

(** X12: every operation only adds to the trace of collaborator calls, and
    what it adds holds at most one call to the store; a token is signed only
    by a [createUser] or a [loginUser] that fulfils. *)
Theorem one_store_call_and_tokens_on_success (op : Operation) (w : World) :
  exists calls,
    trace (snd (run op w)) = trace w ++ calls
    /\ List.length (filter is_store_call calls) <= 1
    /\ (filter is_signToken_call calls <> [] ->
        (exists u, fst (run op w) = Fulfilled (Some u))
        /\ ((exists args, op = op_createUser args)
            \/ (exists args, op = op_loginUser args))).
Proof.
  destruct op as [args|context|args|args|args context|args context];
    cbn [run].
  - unfold Query.user. rewrite findOne_run. eexists [_].
    split; [reflexivity|]. split; [simpl; lia|]. simpl. congruence.
  - unfold Query.me. destruct (truthy (Context.user context)).
    + rewrite findOne_run. eexists [_].
      split; [reflexivity|]. split; [simpl; lia|]. simpl. congruence.
    + exists []. rewrite app_nil_r.
      split; [reflexivity|]. split; [simpl; lia|]. simpl. congruence.
  - unfold bind. rewrite createUser_run. cbv zeta.
    destruct (createAccepted (users w) (CreateUserArgs.input args)).
    + eexists [_; _]. cbn [snd fst trace ret].
      split; [now rewrite <- app_assoc|]. split; [simpl; lia|].
      intros _. split; [now eexists|]. left. now exists args.
    + eexists [_]. split; [reflexivity|]. split; [simpl; lia|].
      simpl. congruence.
  - unfold bind. rewrite loginUser_run. cbv zeta.
    destruct (find (User.matches (by_email (LoginArgs.email args)))
                (users w)) as [d|];
      [destruct (compare (LoginArgs.password args) (Stored.password d))|].
    + eexists [_; _; _]. cbn [snd fst trace ret].
      split; [now rewrite <- !app_assoc|]. split; [simpl; lia|].
      intros _. split; [now eexists|]. right. now exists args.
    + eexists [_; _]. cbn [snd trace].
      split; [now rewrite <- app_assoc|]. split; [simpl; lia|].
      simpl. congruence.
    + eexists [_]. split; [reflexivity|]. split; [simpl; lia|].
      simpl. congruence.
  - unfold Mutation.saveBook. destruct (truthy (Context.user context)).
    + rewrite findOneAndUpdate_run. eexists [_].
      destruct (runValidators {| new := true; runValidators := true |}
                && negb (User.updateAccepted
                           (addToSet_savedBooks (SaveBookArgs.input args))));
        [|destruct (find (User.matches
                            (by__id (get__id (Context.user context))))
                      (users w))];
        (split; [reflexivity|]; split; [simpl; lia|]; simpl; congruence).
    + exists []. rewrite app_nil_r.
      split; [reflexivity|]. split; [simpl; lia|]. simpl. congruence.
  - unfold Mutation.deleteBook. destruct (truthy (Context.user context)).
    + rewrite findOneAndUpdate_run. eexists [_].
      cbn [runValidators andb].
      destruct (find (User.matches
                        (by__id (get__id (Context.user context))))
                  (users w));
        (split; [reflexivity|]; split; [simpl; lia|]; simpl; congruence).
    + exists []. rewrite app_nil_r.
      split; [reflexivity|]. split; [simpl; lia|]. simpl. congruence.
Qed.

End Composition.

(** * The further properties on concrete requests *)

(** X2: alice logs in with her password. *)
Lemma loginUser_fulfilled_is_authentic_witness :
  User.email (Auth.user alice_auth) = LoginArgs.email alice_login
  /\ compare (Collaborators:=sample) (LoginArgs.password alice_login)
       (User.password (Auth.user alice_auth)) = true
  /\ Auth.token alice_auth
     = sign (Collaborators:=sample) (User.username (Auth.user alice_auth))
         (User.email (Auth.user alice_auth)) (User.id (Auth.user alice_auth))
  /\ (exists d, In d (users two_users) /\ Auth.user alice_auth = User.hydrate d)
  /\ users (snd (Mutation.loginUser (C:=sample) alice_login two_users))
     = users two_users.
Proof.
  apply (@loginUser_fulfilled_is_authentic sample alice_login two_users
           (snd (Mutation.loginUser (C:=sample) alice_login two_users))
           alice_auth).
  reflexivity.
Defined.

(** X3: carol, just created in the empty world, logs in. *)
Lemma createUser_then_loginUser_witness :
  exists w2,
    Mutation.loginUser (C:=sample) (credentials carol_args) carol_world
    = (Fulfilled carol_auth, w2)
    /\ users w2 = users carol_world.
Proof.
  apply (@createUser_then_loginUser sample carol_args empty_world carol_world
           carol_auth); reflexivity.
Defined.

(** X4: alice's username is taken. *)
Lemma createUser_refused_witness :
  Mutation.createUser (C:=sample) impostor_args two_users
  = (Rejected (StoreError CreateRefused),
     {| users := users two_users;
        trace := trace two_users
                 ++ [Call_create (CreateUserArgs.input impostor_args)] |}).
Proof.
  apply (@createUser_refused sample impostor_args two_users). reflexivity.
Defined.

(** X5: alice saves [emma], then asks who she is. *)
Lemma me_reads_what_was_written_witness :
  Query.me (as_user "u1")
    (snd (Mutation.saveBook (C:=sample) {| SaveBookArgs.input := emma |}
            (as_user "u1") two_users))
  = (Fulfilled (Some (User.hydrate alice_with_emma)),
     called (Call_findOne (by__id (get__id (Context.user (as_user "u1")))))
       (snd (Mutation.saveBook (C:=sample) {| SaveBookArgs.input := emma |}
               (as_user "u1") two_users))).
Proof.
  apply (@me_reads_what_was_written sample {| SaveBookArgs.input := emma |}
           {| DeleteBookArgs.bookId := "b2" |} (as_user "u1") two_users).
  left. reflexivity.
Defined.

(** X6: alice saves [emma] and deletes it again. *)
Lemma deleteBook_undoes_saveBook_witness :
  exists u1 w1 w2,
    Mutation.saveBook (C:=sample) {| SaveBookArgs.input := emma |}
      (as_user "u1") two_users = (Fulfilled (Some u1), w1)
    /\ Mutation.deleteBook (C:=sample)
         {| DeleteBookArgs.bookId := bookId emma |} (as_user "u1") w1
       = (Fulfilled (Some (User.hydrate alice)), w2)
    /\ User.bookCount u1 = S (List.length (Stored.savedBooks alice))
    /\ users w2 = users two_users.
Proof.
  apply (@deleteBook_undoes_saveBook sample emma (as_user "u1") two_users
           "u1" alice); reflexivity.
Defined.

(** X8: what alice holds once [emma] is saved. *)
Lemma saveBook_fulfilled_keeps_earlier_books_witness :
  truthy (Context.user (as_user "u1")) = true
  /\ bookAccepted (Collaborators:=sample) emma = true
  /\ In emma (User.savedBooks (User.hydrate alice_with_emma))
  /\ exists d,
       In d (users two_users)
       /\ get__id (Context.user (as_user "u1")) = Some (Stored._id d)
       /\ (User._id (User.hydrate alice_with_emma),
           User.username (User.hydrate alice_with_emma),
           User.email (User.hydrate alice_with_emma),
           User.password (User.hydrate alice_with_emma)) = identity d
       /\ (In emma (Stored.savedBooks d) ->
           User.savedBooks (User.hydrate alice_with_emma)
           = Stored.savedBooks d)
       /\ (~ In emma (Stored.savedBooks d) ->
           User.savedBooks (User.hydrate alice_with_emma)
           = Stored.savedBooks d ++ [emma]).
Proof.
  apply (@saveBook_fulfilled_keeps_earlier_books sample
           {| SaveBookArgs.input := emma |} (as_user "u1") two_users
           (snd (Mutation.saveBook (C:=sample)
                   {| SaveBookArgs.input := emma |} (as_user "u1") two_users))
           (User.hydrate alice_with_emma)).
  reflexivity.
Defined.

(** * Authorization and the choice of the target *)

Section Guard.
Context {C : Collaborators}.

Lemma find_by_absent__id (ds : list Stored.t) :
  find (User.matches (by__id None)) ds = None.
Proof. induction ds as [|d ds IH]; [reflexivity|exact IH]. Qed.

Lemma find_by__id (i : ObjectId) (ds : list Stored.t) :
  find (User.matches (by__id (Some i))) ds = first_with__id i ds.
Proof. reflexivity. Qed.

Lemma first_with__id_some (i : ObjectId) (ds : list Stored.t)
    (d : Stored.t) :
  first_with__id i ds = Some d -> Stored._id d = i.
Proof.
  intros H. apply find_some in H. now apply String.eqb_eq.
Qed.

(** C10: [me], [saveBook] and [deleteBook] decide authorization by the
    truthiness of [context.user] alone: each rejects with an authentication
    error exactly when [context.user] is falsy.  With a truthy
    [context.user] each makes one store call, keyed on [context.user._id]
    and on nothing else the user carries.  When the [_id] is absent (an [id]
    may well be there) nobody is matched: [me] and [deleteBook] return an
    absent result, [saveBook] does too unless the validators refuse the
    book, and the collection is unchanged.  When the [_id] is [i], [me]
    returns the first stored user whose [_id] is [i], and [saveBook] and
    [deleteBook] return a user only if its [_id] is [i] and an absent result
    exactly when no stored user has that [_id]. *)
Theorem guarded_resolvers_select_by__id
    (sargs : SaveBookArgs.t) (dargs : DeleteBookArgs.t)
    (context : Context.t) (w : World) :
  (authentication_failure (fst (Query.me context w))
   = negb (truthy (Context.user context))
   /\ authentication_failure (fst (Mutation.saveBook sargs context w))
      = negb (truthy (Context.user context))
   /\ authentication_failure (fst (Mutation.deleteBook dargs context w))
      = negb (truthy (Context.user context)))
  /\ (truthy (Context.user context) = true ->
      (trace (snd (Query.me context w))
       = trace w ++ [Call_findOne (by__id (get__id (Context.user context)))]
       /\ trace (snd (Mutation.saveBook sargs context w))
          = trace w
            ++ [Call_findOneAndUpdate
                  (by__id (get__id (Context.user context)))
                  (addToSet_savedBooks (SaveBookArgs.input sargs))
                  {| new := true; runValidators := true |}]
       /\ trace (snd (Mutation.deleteBook dargs context w))
          = trace w
            ++ [Call_findOneAndUpdate
                  (by__id (get__id (Context.user context)))
                  (pull_savedBooks (DeleteBookArgs.bookId dargs))
                  {| new := true; runValidators := false |}])
      /\ (get__id (Context.user context) = None ->
          fst (Query.me context w) = Fulfilled None
          /\ fst (Mutation.deleteBook dargs context w) = Fulfilled None
          /\ fst (Mutation.saveBook sargs context w)
             = (if bookAccepted (SaveBookArgs.input sargs)
                then Fulfilled None
                else Rejected (StoreError ValidationFailed))
          /\ users (snd (Query.me context w)) = users w
          /\ users (snd (Mutation.deleteBook dargs context w)) = users w
          /\ users (snd (Mutation.saveBook sargs context w)) = users w)
      /\ (forall i, get__id (Context.user context) = Some i ->
          fst (Query.me context w)
          = Fulfilled (option_map User.hydrate (first_with__id i (users w)))
          /\ (fst (Mutation.deleteBook dargs context w) = Fulfilled None
              <-> first_with__id i (users w) = None)
          /\ (forall u,
                fst (Mutation.deleteBook dargs context w) = Fulfilled (Some u)
                -> User._id u = i)
          /\ (bookAccepted (SaveBookArgs.input sargs) = true ->
              (fst (Mutation.saveBook sargs context w) = Fulfilled None
               <-> first_with__id i (users w) = None))
          /\ (forall u,
                fst (Mutation.saveBook sargs context w) = Fulfilled (Some u)
                -> User._id u = i))).
Proof.
  unfold Query.me, Mutation.saveBook, Mutation.deleteBook.
  destruct (truthy (Context.user context)) eqn:Hauth.
  2:{ split; [repeat split|discriminate]. }
  rewrite findOne_run, !findOneAndUpdate_run.
  cbn [runValidators new andb User.updateAccepted negb].
  split; [|intros _; split; [|split]].
  - (* no authentication error *)
    split; [reflexivity|]. split.
    + destruct (bookAccepted (SaveBookArgs.input sargs)); cbn [negb];
        [|reflexivity].
      destruct (find (User.matches (by__id (get__id (Context.user context))))
                  (users w)); reflexivity.
    + destruct (find (User.matches (by__id (get__id (Context.user context))))
                  (users w)); reflexivity.
  - (* the one store call *)
    split; [reflexivity|]. split.
    + destruct (bookAccepted (SaveBookArgs.input sargs)); cbn [negb];
        [|reflexivity].
      destruct (find (User.matches (by__id (get__id (Context.user context))))
                  (users w)); reflexivity.
    + destruct (find (User.matches (by__id (get__id (Context.user context))))
                  (users w)); reflexivity.
  - (* an absent _id *)
    intros Hid. rewrite Hid, find_by_absent__id. cbn [option_map fst snd].
    repeat split.
    + destruct (bookAccepted (SaveBookArgs.input sargs)); reflexivity.
    + destruct (bookAccepted (SaveBookArgs.input sargs)); reflexivity.
  - (* a present _id *)
    intros i Hid. rewrite Hid, find_by__id.
    destruct (first_with__id i (users w)) as [d|] eqn:Hfind.
    + pose proof (first_with__id_some _ _ _ Hfind) as Hd.
      cbn [fst option_map]. split; [reflexivity|].
      split; [split; discriminate|].
      split; [intros u [= <-]; destruct d; exact Hd|].
      destruct (bookAccepted (SaveBookArgs.input sargs)); cbn [negb fst].
      * split; [intros _; split; discriminate|].
        intros u [= <-]. destruct d; exact Hd.
      * split; [discriminate|]. intros u. discriminate.
    + cbn [fst option_map]. split; [reflexivity|].
      split; [split; reflexivity|].
      split; [intros u; discriminate|].
      destruct (bookAccepted (SaveBookArgs.input sargs)); cbn [negb fst].
      * split; [intros _; split; reflexivity|]. intros u. discriminate.
      * split; [discriminate|]. intros u. discriminate.
Qed.

End Guard.

(** C10: a context user whose [_id] names bob and whose [id] names alice
    reaches bob; one that carries alice's identifier as [id] only reaches
    nobody. *)
Lemma guarded_resolvers_select_by__id_witness :
  (fst (Query.me bob_by__id_alice_by_id two_users)
   = Fulfilled (Some (User.hydrate bob))
   /\ forall u,
        fst (Mutation.deleteBook (C:=sample)
               {| DeleteBookArgs.bookId := "b1" |} bob_by__id_alice_by_id
               two_users) = Fulfilled (Some u) ->
        User._id u = "u2")
  /\ (fst (Query.me (id_only "u1") two_users) = Fulfilled None
      /\ users (snd (Mutation.saveBook (C:=sample)
                       {| SaveBookArgs.input := emma |} (id_only "u1")
                       two_users)) = users two_users
      /\ authentication_failure
           (fst (Mutation.saveBook (C:=sample)
                   {| SaveBookArgs.input := emma |} (id_only "u1")
                   two_users)) = false).
Proof.
  split.
  - destruct (@guarded_resolvers_select_by__id sample
                {| SaveBookArgs.input := emma |}
                {| DeleteBookArgs.bookId := "b1" |}
                bob_by__id_alice_by_id two_users)
      as [_ Hsel].
    destruct (Hsel eq_refl) as [_ [_ Hsome]].
    destruct (Hsome "u2" eq_refl) as [Hme [_ [Hdel _]]].
    split; [exact Hme|exact Hdel].
  - destruct (@guarded_resolvers_select_by__id sample
                {| SaveBookArgs.input := emma |}
                {| DeleteBookArgs.bookId := "b1" |}
                (id_only "u1") two_users)
      as [[_ [Hauth _]] Hsel].
    destruct (Hsel eq_refl) as [_ [Hnone _]].
    destruct (Hnone eq_refl) as [Hme [_ [_ [_ [_ Husers]]]]].
    split; [exact Hme|]. split; [exact Husers|exact Hauth].
Defined.
